(** * WaterPool: the optical model of the water scene

    A shallow embedding of the GLSL shaders and of the render loop of
    [main.cpp].  A GLSL [float] is read as a real number: arithmetic is
    exact, [sqrt] and [/] are the total functions of the Standard Library
    ([sqrt] of a negative number and division by zero are handled
    separately, in the checked variant of the refraction routine).
    Where rounding decides, the first statements of the refraction routine
    are also given in IEEE binary32 arithmetic ([Binary32]).
    Textures are functions from coordinates to colours. *)

From Stdlib Require Import Reals Lra Psatz List ZArith Bool.
From Stdlib Require SpecFloat.
Import ListNotations.

Local Open Scope R_scope.

(** ** GLSL vectors and the built-in functions the shaders use *)

Module Glsl.

Record vec2 : Type := Vec2 { v2x : R; v2y : R }.
Record vec3 : Type := Vec3 { v3x : R; v3y : R; v3z : R }.
Record vec4 : Type := Vec4 { v4x : R; v4y : R; v4z : R; v4w : R }.

(** A [mat4] is stored by columns, as GLSL does. *)
Record mat4 : Type := Mat4 { col0 : vec4; col1 : vec4; col2 : vec4; col3 : vec4 }.

Definition dot (a b : vec3) : R :=
  v3x a * v3x b + v3y a * v3y b + v3z a * v3z b.

Definition length (a : vec3) : R := sqrt (dot a a).

Definition scale (k : R) (a : vec3) : vec3 :=
  Vec3 (k * v3x a) (k * v3y a) (k * v3z a).

(** [v * k] and [v / k] with the scalar on the right. *)
Definition rscale (a : vec3) (k : R) : vec3 :=
  Vec3 (v3x a * k) (v3y a * k) (v3z a * k).

Definition rdiv (a : vec3) (k : R) : vec3 :=
  Vec3 (v3x a / k) (v3y a / k) (v3z a / k).

Definition add (a b : vec3) : vec3 :=
  Vec3 (v3x a + v3x b) (v3y a + v3y b) (v3z a + v3z b).

Definition sub (a b : vec3) : vec3 :=
  Vec3 (v3x a - v3x b) (v3y a - v3y b) (v3z a - v3z b).

(** Component-wise product of two vectors. *)
Definition mul (a b : vec3) : vec3 :=
  Vec3 (v3x a * v3x b) (v3y a * v3y b) (v3z a * v3z b).

Definition normalize (a : vec3) : vec3 := rdiv a (length a).

Definition xyz (a : vec4) : vec3 := Vec3 (v4x a) (v4y a) (v4z a).

Definition vec4_of (a : vec3) (w : R) : vec4 := Vec4 (v3x a) (v3y a) (v3z a) w.

Definition mat_mul_vec (m : mat4) (v : vec4) : vec4 :=
  Vec4 (v4x (col0 m) * v4x v + v4x (col1 m) * v4y v + v4x (col2 m) * v4z v + v4x (col3 m) * v4w v)
       (v4y (col0 m) * v4x v + v4y (col1 m) * v4y v + v4y (col2 m) * v4z v + v4y (col3 m) * v4w v)
       (v4z (col0 m) * v4x v + v4z (col1 m) * v4y v + v4z (col2 m) * v4z v + v4z (col3 m) * v4w v)
       (v4w (col0 m) * v4x v + v4w (col1 m) * v4y v + v4w (col2 m) * v4z v + v4w (col3 m) * v4w v).

(** [glm::mat4(1.f)] *)
Definition mat4_identity : mat4 :=
  Mat4 (Vec4 1 0 0 0) (Vec4 0 1 0 0) (Vec4 0 0 1 0) (Vec4 0 0 0 1).

(** [pow(x, 5)]: GLSL leaves [pow] undefined for a negative base; every
    call of the shaders has the base [1 - cosine] with [cosine <= 1]. *)
Definition pow5 (x : R) : R := x ^ 5.

Definition gtb (a b : R) : bool := if Rlt_dec b a then true else false.
Definition ltb (a b : R) : bool := if Rlt_dec a b then true else false.

End Glsl.

Import Glsl.

(** ** Water vertex shader ([water_vertex_shader_source]) *)

Module WaterVS.
Section Shader.

Variables (model view projection : mat4) (time : R).
Variable in_position : vec2.

Definition get_height : R :=
  let base_height := 5 in
  let add := 0.5 * sin (v2x in_position + time)
             + 0.2 * cos (v2y in_position + 3 * time)
             + 0.1 * sin (v2x in_position + 2 * v2y in_position + time) in
  base_height + add.

Definition dhdx : R :=
  0.5 * cos (v2x in_position + time)
  + 0.1 * cos (v2x in_position + 2 * v2y in_position + time).

Definition dhdy : R :=
  -0.2 * sin (v2y in_position + 3 * time)
  + 0.2 * cos (v2x in_position + 2 * v2y in_position + time).

Record outputs : Type :=
  Outputs { gl_Position : vec4; position : vec3; normal : vec3 }.

Definition main : outputs :=
  let position0 := Vec3 (v2x in_position) get_height (v2y in_position) in
  let gl_Position0 :=
    mat_mul_vec projection (mat_mul_vec view (mat_mul_vec model (vec4_of position0 1))) in
  let position1 := xyz (mat_mul_vec model (vec4_of position0 1)) in
  let normal0 := normalize (Vec3 (- dhdx) 1 (- dhdy)) in
  Outputs gl_Position0 position1 normal0.

End Shader.
End WaterVS.

(** ** Water fragment shader ([water_fragment_shader_source]) *)

Module WaterFS.
Section Shader.

Variables (camera_position ambient_light sun_light sun_direction : vec3).
Variables (glossiness roughness : R).
(** [samplerCube tex], [sampler2D floor_tex], [sampler2D caustics_tex] *)
Variable tex : vec3 -> vec4.
Variables floor_tex caustics_tex : vec2 -> vec4.
Variables floor_width floor_height : R.
(** The interpolated outputs of the vertex shader. *)
Variables position normal : vec3.

Definition diffuse (direction : vec3) : R :=
  Rmax 0 (dot (Vec3 0 1 0) direction).

Definition reflect (direction : vec3) : vec3 :=
  let cosine := dot normal direction in
  sub (rscale (scale 2 normal) cosine) direction.

Definition get_floor (pos : vec3) : vec3 :=
  let caustics_data := caustics_tex (Vec2 (v3x pos / 40) (v3z pos / 8)) in
  let albedo := xyz (floor_tex (Vec2 (v3x pos / 4) (v3z pos / 4))) in
  let albedo := add albedo (scale (v4w caustics_data) (xyz caustics_data)) in
  let color := mul albedo ambient_light in
  let sun_impact := diffuse sun_direction in
  let color := add color (mul (rscale albedo sun_impact) sun_light) in
  color.

(** The local [refracted_position] of [get_refract] (its first eleven
    statements). *)
Definition refracted_position (direction : vec3) (n1 n2 : R) : vec3 :=
  let cosine := dot (normalize normal) direction in
  let sine := sqrt (1 - cosine * cosine) in
  let refract_sine := n1 * sine / n2 in
  let refract_cosine := sqrt (1 - refract_sine * refract_sine) in
  let h := v3y position in
  let straight_floor_x := - v3x direction * h / v3y direction + v3x position in
  let straight_floor_z := - v3z direction * h / v3y direction + v3z position in
  let projection_position := Vec3 (v3x position) 0 (v3y position) in
  let straight_projection :=
    sub (Vec3 straight_floor_x 0 straight_floor_z) projection_position in
  let refracted_projection :=
    rdiv (rscale (rdiv (rscale straight_projection n1) n2) cosine) refract_cosine in
  add projection_position refracted_projection.

(** The test of the [if] of [get_refract]. *)
Definition on_floor (p : vec3) : bool :=
  gtb (v3x p) 0 && gtb (v3z p) 0 && ltb (v3x p) floor_width && ltb (v3z p) floor_height.

Definition get_refract (direction : vec3) (n1 n2 : R) : vec3 :=
  let refracted_position := refracted_position direction n1 n2 in
  if on_floor refracted_position then get_floor refracted_position
  else
    let refracted_ray := normalize (sub refracted_position position) in
    xyz (tex refracted_ray).

(** The three assignments to the local [coef] of [main]. *)
Definition coef (n1 n2 cosine : R) : R :=
  let coef := (n1 - n2) / (n1 + n2) in
  let coef := coef * coef in
  let coef := coef + (1 - coef) * pow5 (1 - cosine) in
  coef.

Definition main : vec4 :=
  let view_direction := normalize (sub camera_position position) in
  let n1 := 1.0 in
  let n2 := 1.333 in
  let cosine := dot (normalize normal) sun_direction in
  let coef := coef n1 n2 cosine in
  let reflect_color := scale coef (xyz (tex (reflect view_direction))) in
  let refract_color := scale (1 - coef) (get_refract view_direction n1 n2) in
  let color := add reflect_color refract_color in
  vec4_of color 1.0.

End Shader.
End WaterFS.

(** ** Caustic vertex shader ([caustic_vertex_shader_source]) *)

Module CausticVS.
Section Shader.

Variables (model : mat4) (time : R) (sun_direction : vec3).
Variable in_position : vec2.

Definition get_height : R :=
  let base_height := 5 in
  let add := 0.5 * sin (v2x in_position + time)
             + 0.2 * cos (v2y in_position + 3 * time)
             + 0.1 * sin (v2x in_position + 2 * v2y in_position + time) in
  base_height + add.

Definition dhdx : R :=
  0.5 * cos (v2x in_position + time)
  + 0.1 * cos (v2x in_position + 2 * v2y in_position + time).

Definition dhdy : R :=
  -0.2 * sin (v2y in_position + 3 * time)
  + 0.2 * cos (v2x in_position + 2 * v2y in_position + time).

Definition get_refract (direction : vec3) (n1 n2 : R) (normal position : vec3) : vec3 :=
  let cosine := dot (normalize normal) direction in
  let sine := sqrt (1 - cosine * cosine) in
  let refract_sine := n1 * sine / n2 in
  let refract_cosine := sqrt (1 - refract_sine * refract_sine) in
  let h := v3y position in
  let straight_floor_x := - v3x direction * h / v3y direction + v3x position in
  let straight_floor_z := - v3z direction * h / v3y direction + v3z position in
  let projection_position := Vec3 (v3x position) 0 (v3y position) in
  let straight_projection :=
    sub (Vec3 straight_floor_x 0 straight_floor_z) projection_position in
  let refracted_projection :=
    rdiv (rscale (rdiv (rscale straight_projection n1) n2) cosine) refract_cosine in
  let refracted_position := add projection_position refracted_projection in
  refracted_position.

(** The locals [position] and [normal] of [main]; the shader declares no
    [out] variable, so neither leaves the vertex stage. *)
Definition main_position : vec3 :=
  let position := Vec3 (v2x in_position) get_height (v2y in_position) in
  xyz (mat_mul_vec model (vec4_of position 1.0)).

Definition main_normal : vec3 := normalize (Vec3 (- dhdx) 1.0 (- dhdy)).

(** The only output of the shader is [gl_Position]. *)
Definition main : vec4 :=
  let position := main_position in
  let normal := main_normal in
  let refracted := get_refract sun_direction 1.0 1.33 normal position in
  let texcoord := Vec2 (v3x refracted) (v3z refracted) in
  let texcoord := Vec2 (v2x texcoord / 40.0) (v2y texcoord) in
  let texcoord := Vec2 (v2x texcoord) (v2y texcoord / 8.0) in
  Vec4 (v2x texcoord * 2.0 - 1.0) (v2y texcoord * 2.0 - 1.0) 0.0 1.0.

End Shader.
End CausticVS.

(** ** Caustic fragment shader ([caustic_fragment_shader_source]) *)

Module CausticFS.
Section Shader.

Variables sun_light sun_direction : vec3.
(** [in vec3 normal]: an input of the fragment stage. *)
Variable normal : vec3.

(** The three assignments to the local [coef] of [main]. *)
Definition coef (n1 n2 cosine : R) : R :=
  let coef := (n1 - n2) / (n1 + n2) in
  let coef := coef * coef in
  let coef := coef + (1 - coef) * pow5 (1 - cosine) in
  coef.

(** The local [color] is computed and never used. *)
Definition main : vec4 :=
  let n1 := 1.0 in
  let n2 := 1.333 in
  let cosine := dot (normalize normal) sun_direction in
  let coef := coef n1 n2 cosine in
  let color := scale (1 - coef) sun_light in
  vec4_of sun_light (1.0 - coef).

End Shader.
End CausticFS.

(** ** The refraction routine with its partial operations made explicit

  The same statements as [get_refract] of the caustic vertex shader (and as
  the first eleven of the water fragment shader's), where a square root of
  a negative number and a division by zero yield [None]. *)

Module Checked.

Definition bind {A B : Type} (m : option A) (f : A -> option B) : option B :=
  match m with
  | Some a => f a
  | None => None
  end.

Notation "x <- m ;; k" := (bind m (fun x => k))
  (at level 61, m at next level, right associativity).

Definition sqrt_checked (x : R) : option R :=
  if Rle_dec 0 x then Some (sqrt x) else None.

Definition div_checked (a b : R) : option R :=
  if Req_dec_T b 0 then None else Some (a / b).

Definition rdiv_checked (a : vec3) (k : R) : option vec3 :=
  if Req_dec_T k 0 then None else Some (rdiv a k).

Definition normalize_checked (a : vec3) : option vec3 :=
  len <- sqrt_checked (dot a a) ;;
  rdiv_checked a len.

Definition get_refract (direction : vec3) (n1 n2 : R) (normal position : vec3)
  : option vec3 :=
  unit_normal <- normalize_checked normal ;;
  let cosine := dot unit_normal direction in
  sine <- sqrt_checked (1 - cosine * cosine) ;;
  refract_sine <- div_checked (n1 * sine) n2 ;;
  refract_cosine <- sqrt_checked (1 - refract_sine * refract_sine) ;;
  let h := v3y position in
  qx <- div_checked (- v3x direction * h) (v3y direction) ;;
  let straight_floor_x := qx + v3x position in
  qz <- div_checked (- v3z direction * h) (v3y direction) ;;
  let straight_floor_z := qz + v3z position in
  let projection_position := Vec3 (v3x position) 0 (v3y position) in
  let straight_projection :=
    sub (Vec3 straight_floor_x 0 straight_floor_z) projection_position in
  p1 <- rdiv_checked (rscale straight_projection n1) n2 ;;
  refracted_projection <- rdiv_checked (rscale p1 cosine) refract_cosine ;;
  Some (add projection_position refracted_projection).

End Checked.

(** ** The caustics program: how its two stages are linked

  The vertex shader has no [out] variable and the fragment shader reads
  [in vec3 normal]: no output of the vertex stage feeds that input. Where
  the driver links the program all the same, the value the fragment stage
  sees, [unlinked_normal], is undefined: it is not a function of the
  vertex. A sample is the position the vertex is written at and the value
  written there. *)

Module CausticsProgram.

Definition sample (model : mat4) (time : R) (sun_direction sun_light : vec3)
  (in_position : vec2) (unlinked_normal : vec3) : vec4 * vec4 :=
  (CausticVS.main model time sun_direction in_position,
   CausticFS.main sun_light sun_direction unlinked_normal).

End CausticsProgram.

(** ** The formulas of the specification, to compare the shaders with *)

Module Spec.

(** Schlick's approximation: [R0 + (1 - R0) (1 - cos_theta)^5] with
    [R0 = ((n1 - n2) / (n1 + n2))^2]. *)
Definition R0 (n1 n2 : R) : R := ((n1 - n2) / (n1 + n2)) ^ 2.

Definition schlick (n1 n2 cos_theta : R) : R :=
  R0 n1 n2 + (1 - R0 n1 n2) * (1 - cos_theta) ^ 5.

Definition transmit (n1 n2 cos_theta : R) : R := 1 - schlick n1 n2 cos_theta.

(** The horizontal projection [(Px, 0, Pz)] of a surface point. *)
Definition horizontal_projection (P : vec3) : vec3 := Vec3 (v3x P) 0 (v3z P).

(** Where the straight ray [P + s D] meets the plane [y = 0]. *)
Definition straight_floor_hit (P D : vec3) : vec3 :=
  let s := - v3y P / v3y D in
  Vec3 (v3x P + s * v3x D) 0 (v3z P + s * v3z D).

Definition cos_i (N D : vec3) : R := dot N D.
Definition sin_i (N D : vec3) : R := sqrt (Rmax 0 (1 - cos_i N D ^ 2)).
Definition sin_t (n1 n2 : R) (N D : vec3) : R := n1 * sin_i N D / n2.
Definition cos_t (n1 n2 : R) (N D : vec3) : R :=
  sqrt (Rmax 0 (1 - sin_t n1 n2 N D ^ 2)).

(** The landing point: the horizontal projection plus the straight-ray
    horizontal offset scaled by [(n1/n2) * (cos_i / cos_t)]. *)
Definition landing_point (n1 n2 : R) (P D N : vec3) : vec3 :=
  let straight_offset := sub (straight_floor_hit P D) (horizontal_projection P) in
  add (horizontal_projection P)
      (scale ((n1 / n2) * (cos_i N D / cos_t n1 n2 N D)) straight_offset).

(** The water colour: [reflect_weight * reflected_color + transmit_weight *
    transmitted_color], the split taken at [cos_theta]. *)
Definition composite (n1 n2 cos_theta : R) (reflected_color transmitted_color : vec3) : vec4 :=
  let reflect_weight := schlick n1 n2 cos_theta in
  let transmit_weight := 1 - reflect_weight in
  vec4_of (add (scale reflect_weight reflected_color)
               (scale transmit_weight transmitted_color)) 1.

(** The value a caustic sample carries: [(light_color, transmit_weight)]. *)
Definition caustic_value (n1 n2 : R) (light_color N light_direction : vec3) : vec4 :=
  vec4_of light_color (transmit n1 n2 (dot N light_direction)).

(** The wave-field normal [normalize(-dh/dx, 1, -dh/dz)] at a vertex. *)
Definition wave_normal (time : R) (in_position : vec2) : vec3 :=
  normalize (Vec3 (- WaterVS.dhdx time in_position) 1 (- WaterVS.dhdy time in_position)).

End Spec.

(** ** The host program: scene constants, the OpenGL state the passes touch,
  and one iteration of the render loop *)

Module Host.

Definition floor_width : R := 40.
Definition floor_height : R := 8.
Definition model : mat4 := mat4_identity.
Definition light_direction : vec3 := normalize (Vec3 0.9 1 (-0.2)).
Definition sun_color : vec3 := Vec3 1.0 0.9 0.8.
Definition ambient_color : vec3 := Vec3 0.2 0.2 0.2.

Definition width_water_cnt : Z := 500.
Definition height_water_cnt : Z := 100.

Definition get_water_position (i j : Z) (floor_width floor_height : R)
  (width_water_cnt height_water_cnt : Z) : vec2 :=
  Vec2 (floor_width / IZR width_water_cnt * IZR i)
       (floor_height / IZR height_water_cnt * IZR j).

Inductive program : Type :=
  caustics_program | env_program | floor_program | water_program.

(** [window_framebuffer] is framebuffer [0]; the colour attachment of
    [caustics_fbo] is the texture [caustics_tex]. *)
Inductive framebuffer : Type := window_framebuffer | caustics_fbo.

Inductive texture : Type := tex | env_tex | caustics_tex.

Inductive target : Type := GL_TEXTURE_2D | GL_TEXTURE_CUBE_MAP.

Inductive capability : Type := GL_BLEND | GL_DEPTH_TEST | GL_CULL_FACE.

Inductive sampler : Type := sampler_tex | sampler_floor_tex | sampler_caustics_tex.

(** The sampler uniforms each program declares, with their types. *)
Definition samplers (p : program) : list (sampler * target) :=
  match p with
  | caustics_program => []
  | env_program => [(sampler_tex, GL_TEXTURE_CUBE_MAP)]
  | floor_program => [(sampler_tex, GL_TEXTURE_2D); (sampler_caustics_tex, GL_TEXTURE_2D)]
  | water_program =>
      [(sampler_tex, GL_TEXTURE_CUBE_MAP); (sampler_floor_tex, GL_TEXTURE_2D);
       (sampler_caustics_tex, GL_TEXTURE_2D)]
  end.

(** The calls of the render loop. A uniform location is the program and
    the name it was looked up with; [glUniform_data] stands for the calls
    that set a matrix, vector or float uniform, and [glBindVertexArray] and
    [glBindBuffer] for the vertex data bindings. *)
Inductive gl_call : Type :=
| glUseProgram (p : program)
| glBindFramebuffer (fb : framebuffer)
| glClearColor (r g b a : R)
| glClear
| glViewport (w h : Z)
| glEnable (c : capability)
| glDisable (c : capability)
| glBlendFunc
| glUniform1i (p : program) (s : sampler) (unit : nat)
| glUniform_data (p : program)
| glBindVertexArray
| glBindBuffer
| glActiveTexture (unit : nat)
| glBindTexture (t : target) (x : texture)
| glDrawArrays
| SDL_GL_SwapWindow.

(** What a frame does to the buffers. *)
Inductive event : Type :=
| Cleared (fb : framebuffer) (color : vec4)
| Drawn (p : program) (fb : framebuffer) (sampled : list (option texture))
        (blend depth_test : bool)
| Presented.

Record gl_state : Type := GlState {
  current_program : option program;
  draw_framebuffer : framebuffer;
  clear_color : vec4;
  blend : bool;
  depth_test : bool;
  cull_face : bool;
  active_texture : nat;
  bound : nat -> target -> option texture;
  sampler_unit : program -> sampler -> nat;
  log : list event
}.

Definition program_eqb (p q : program) : bool :=
  match p, q with
  | caustics_program, caustics_program | env_program, env_program
  | floor_program, floor_program | water_program, water_program => true
  | _, _ => false
  end.

Definition sampler_eqb (s t : sampler) : bool :=
  match s, t with
  | sampler_tex, sampler_tex | sampler_floor_tex, sampler_floor_tex
  | sampler_caustics_tex, sampler_caustics_tex => true
  | _, _ => false
  end.

Definition target_eqb (s t : target) : bool :=
  match s, t with
  | GL_TEXTURE_2D, GL_TEXTURE_2D | GL_TEXTURE_CUBE_MAP, GL_TEXTURE_CUBE_MAP => true
  | _, _ => false
  end.

Definition set_capability (c : capability) (v : bool) (st : gl_state) : gl_state :=
  match c with
  | GL_BLEND =>
      GlState (current_program st) (draw_framebuffer st) (clear_color st) v
        (depth_test st) (cull_face st) (active_texture st) (bound st)
        (sampler_unit st) (log st)
  | GL_DEPTH_TEST =>
      GlState (current_program st) (draw_framebuffer st) (clear_color st) (blend st)
        v (cull_face st) (active_texture st) (bound st) (sampler_unit st) (log st)
  | GL_CULL_FACE =>
      GlState (current_program st) (draw_framebuffer st) (clear_color st) (blend st)
        (depth_test st) v (active_texture st) (bound st) (sampler_unit st) (log st)
  end.

Definition emit (e : event) (st : gl_state) : gl_state :=
  GlState (current_program st) (draw_framebuffer st) (clear_color st) (blend st)
    (depth_test st) (cull_face st) (active_texture st) (bound st) (sampler_unit st)
    (log st ++ [e]).

(** The textures a draw call of program [p] samples: each sampler uniform
    reads the texture bound to its unit under the target of its type. *)
Definition sampled_textures (st : gl_state) (p : program) : list (option texture) :=
  map (fun d => bound st (sampler_unit st p (fst d)) (snd d)) (samplers p).

Definition step (st : gl_state) (c : gl_call) : gl_state :=
  match c with
  | glUseProgram p =>
      GlState (Some p) (draw_framebuffer st) (clear_color st) (blend st)
        (depth_test st) (cull_face st) (active_texture st) (bound st)
        (sampler_unit st) (log st)
  | glBindFramebuffer fb =>
      GlState (current_program st) fb (clear_color st) (blend st)
        (depth_test st) (cull_face st) (active_texture st) (bound st)
        (sampler_unit st) (log st)
  | glClearColor r g b a =>
      GlState (current_program st) (draw_framebuffer st) (Vec4 r g b a) (blend st)
        (depth_test st) (cull_face st) (active_texture st) (bound st)
        (sampler_unit st) (log st)
  | glClear => emit (Cleared (draw_framebuffer st) (clear_color st)) st
  | glEnable c => set_capability c true st
  | glDisable c => set_capability c false st
  | glUniform1i p s unit =>
      (* the location must belong to the program in use *)
      match current_program st with
      | Some q =>
          if program_eqb p q then
            GlState (current_program st) (draw_framebuffer st) (clear_color st)
              (blend st) (depth_test st) (cull_face st) (active_texture st) (bound st)
              (fun p' s' =>
                 if program_eqb p' p && sampler_eqb s' s then unit
                 else sampler_unit st p' s')
              (log st)
          else st
      | None => st
      end
  | glActiveTexture unit =>
      GlState (current_program st) (draw_framebuffer st) (clear_color st) (blend st)
        (depth_test st) (cull_face st) unit (bound st) (sampler_unit st) (log st)
  | glBindTexture t x =>
      GlState (current_program st) (draw_framebuffer st) (clear_color st) (blend st)
        (depth_test st) (cull_face st) (active_texture st)
        (fun u t' =>
           if Nat.eqb u (active_texture st) && target_eqb t' t then Some x
           else bound st u t')
        (sampler_unit st) (log st)
  | glDrawArrays =>
      match current_program st with
      | Some p =>
          emit (Drawn p (draw_framebuffer st) (sampled_textures st p)
                  (blend st) (depth_test st)) st
      | None => st
      end
  | SDL_GL_SwapWindow => emit Presented st
  | glViewport _ _ | glBlendFunc | glUniform_data _ | glBindVertexArray | glBindBuffer => st
  end.

Definition run (st : gl_state) (calls : list gl_call) : gl_state :=
  fold_left step calls st.

Definition caustics_resolution : Z := 512.

(** The four passes of one frame, in the order of the source. *)
Definition caustics_pass : list gl_call :=
  [ glUseProgram caustics_program;
    glBindFramebuffer caustics_fbo;
    glClearColor 0 0 0 0;
    glClear;
    glViewport caustics_resolution caustics_resolution;
    glEnable GL_BLEND;
    glBlendFunc;
    glUniform_data caustics_program;
    glUniform_data caustics_program;
    glUniform_data caustics_program;
    glUniform_data caustics_program;
    glBindVertexArray;
    glBindBuffer;
    glDrawArrays ].

Definition environment_pass (width height : Z) : list gl_call :=
  [ glUseProgram env_program;
    glBindFramebuffer window_framebuffer;
    glClearColor 0.8 0.8 1 0;
    glViewport width height;
    glClear;
    glEnable GL_CULL_FACE;
    glDisable GL_DEPTH_TEST;
    glDisable GL_BLEND;
    glUniform1i env_program sampler_tex 1;
    glUniform_data env_program;
    glUniform_data env_program;
    glActiveTexture 1;
    glBindTexture GL_TEXTURE_CUBE_MAP env_tex;
    glBindVertexArray;
    glBindBuffer;
    glDrawArrays ].

Definition floor_pass : list gl_call :=
  [ glUseProgram floor_program;
    glEnable GL_DEPTH_TEST;
    glUniform_data floor_program;
    glUniform_data floor_program;
    glUniform_data floor_program;
    glUniform_data floor_program;
    glUniform_data floor_program;
    glUniform1i floor_program sampler_tex 0;
    glUniform1i floor_program sampler_caustics_tex 2;
    glUniform_data floor_program;
    glUniform_data floor_program;
    glUniform_data floor_program;
    glUniform_data floor_program;
    glBindVertexArray;
    glBindBuffer;
    glActiveTexture 0;
    glBindTexture GL_TEXTURE_2D tex;
    glActiveTexture 2;
    glBindTexture GL_TEXTURE_2D caustics_tex;
    glDrawArrays ].

Definition water_pass : list gl_call :=
  [ glUseProgram water_program;
    glEnable GL_DEPTH_TEST;
    glUniform_data water_program;
    glUniform_data water_program;
    glUniform_data water_program;
    glUniform_data water_program;
    glUniform_data water_program;
    glUniform_data water_program;
    glUniform_data water_program;
    glUniform_data water_program;
    glUniform_data water_program;
    glUniform_data water_program;
    glUniform1i water_program sampler_tex 1;
    glUniform1i water_program sampler_floor_tex 0;
    glUniform1i water_program sampler_caustics_tex 2;
    glUniform_data water_program;
    glUniform_data water_program;
    glBindVertexArray;
    glBindBuffer;
    glActiveTexture 0;
    glBindTexture GL_TEXTURE_2D tex;
    glActiveTexture 1;
    glBindTexture GL_TEXTURE_CUBE_MAP env_tex;
    glActiveTexture 2;
    glBindTexture GL_TEXTURE_2D caustics_tex;
    glDrawArrays ].

Definition frame (width height : Z) : list gl_call :=
  caustics_pass ++ environment_pass width height ++ floor_pass ++ water_pass
  ++ [SDL_GL_SwapWindow].

(** The events the loop polls. Keys other than [SDLK_p] only move the
    camera, which reaches the passes through data uniforms. *)
Inductive keycode : Type := SDLK_p | SDLK_other.

Inductive sdl_event : Type :=
| SDL_QUIT
| SDL_WINDOWEVENT_RESIZED (data1 data2 : Z)
| SDL_KEYDOWN (sym : keycode)
| SDL_KEYUP (sym : keycode)
| SDL_other.

Record loop_state : Type := LoopState {
  running : bool;
  paused : bool;
  time : R;
  width : Z;
  height : Z;
  gl : gl_state
}.

Definition handle_event (s : loop_state) (e : sdl_event) : loop_state :=
  match e with
  | SDL_QUIT => LoopState false (paused s) (time s) (width s) (height s) (gl s)
  | SDL_WINDOWEVENT_RESIZED data1 data2 =>
      LoopState (running s) (paused s) (time s) data1 data2
        (step (gl s) (glViewport data1 data2))
  | SDL_KEYDOWN SDLK_p =>
      LoopState (running s) (negb (paused s)) (time s) (width s) (height s) (gl s)
  | SDL_KEYDOWN SDLK_other | SDL_KEYUP _ | SDL_other => s
  end.

(** The body of [while (running)]: poll the events, leave on quit, advance
    the time, draw the frame. [dt] is the time since the last frame. *)
Definition iteration (events : list sdl_event) (dt : R) (s : loop_state) : loop_state :=
  let s := fold_left handle_event events s in
  if negb (running s) then s
  else
    let time := if paused s then time s else time s + dt in
    LoopState (running s) (paused s) time (width s) (height s)
      (run (gl s) (frame (width s) (height s))).

Fixpoint render_loop (inputs : list (list sdl_event * R)) (s : loop_state) : loop_state :=
  match inputs with
  | [] => s
  | (events, dt) :: rest =>
      if running s then render_loop rest (iteration events dt s) else s
  end.

(** The events an iteration appends to the log. *)
Definition frame_events (events : list sdl_event) (dt : R) (s : loop_state) : list event :=
  skipn (List.length (log (gl s))) (log (gl (iteration events dt s))).

Definition writes_caustic_buffer (e : event) : bool :=
  match e with
  | Cleared caustics_fbo _ | Drawn _ caustics_fbo _ _ _ => true
  | _ => false
  end.

Definition texture_eqb (a b : texture) : bool :=
  match a, b with
  | tex, tex | env_tex, env_tex | caustics_tex, caustics_tex => true
  | _, _ => false
  end.

Definition reads_caustic_buffer (e : event) : bool :=
  match e with
  | Drawn _ _ sampled _ _ =>
      existsb (fun t => match t with Some x => texture_eqb x caustics_tex | None => false end)
        sampled
  | _ => false
  end.

(** The state the loop starts in, after the setup code of [main]. *)
Definition initial_gl_state : gl_state :=
  GlState (Some floor_program) caustics_fbo (Vec4 0 0 0 0) false false false 2
    (fun u t =>
       match u, t with
       | 0%nat, GL_TEXTURE_2D => Some tex
       | 1%nat, GL_TEXTURE_CUBE_MAP => Some env_tex
       | 2%nat, GL_TEXTURE_2D => Some caustics_tex
       | _, _ => None
       end)
    (fun _ _ => 0%nat) [].

Definition initial_state (width height : Z) : loop_state :=
  LoopState true false 0 width height initial_gl_state.

End Host.

(** ** A test scene: a white backdrop over a black floor without caustics *)

Module Scene.

Definition white_backdrop : vec3 -> vec4 := fun _ => Vec4 1 1 1 1.
Definition black_floor : vec2 -> vec4 := fun _ => Vec4 0 0 0 1.
Definition no_caustics : vec2 -> vec4 := fun _ => Vec4 0 0 0 0.

(** The water fragment shader with the uniforms of the host program. *)
Definition water_main (camera_position position normal : vec3) : vec4 :=
  WaterFS.main camera_position Host.ambient_color Host.sun_color Host.light_direction
    white_backdrop black_floor no_caustics Host.floor_width Host.floor_height
    position normal.

Definition water_get_refract (position normal direction : vec3) (n1 n2 : R) : vec3 :=
  WaterFS.get_refract Host.ambient_color Host.sun_color Host.light_direction
    white_backdrop black_floor no_caustics Host.floor_width Host.floor_height
    position normal direction n1 n2.

End Scene.

(** ** Floor fragment shader ([floor_fragment_shader_source]) *)

Module FloorFS.

(** [pow(x, y)] with a real exponent. GLSL leaves it undefined for [x < 0]
    and for [x = 0] with [y <= 0]; the shader calls it on [max(0.0, ...)]. *)
Definition pow (x y : R) : R := if Req_dec_T x 0 then 0 else Rpower x y.

Section Shader.

Variables (camera_position ambient_light sun_light sun_direction : vec3).
Variables (glossiness roughness : R).
(** [sampler2D tex], [sampler2D caustics_tex] *)
Variables tex caustics_tex : vec2 -> vec4.
(** The interpolated outputs of the floor vertex shader. *)
Variables position normal : vec3.
Variable texcoord : vec2.

Definition diffuse (direction : vec3) : R :=
  Rmax 0 (dot normal direction).

Definition reflect (direction : vec3) : vec3 :=
  let cosine := dot normal direction in
  sub (rscale (scale 2 normal) cosine) direction.

Definition specular (direction : vec3) : R :=
  let view_direction := normalize (sub camera_position position) in
  let reflected := reflect direction in
  let power := 1 / (roughness * roughness) - 1 in
  glossiness * pow (Rmax 0 (dot reflected view_direction)) power.

Definition main : vec4 :=
  let caustics_texcoord := Vec2 (v3x position / 40) (v3z position / 8) in
  let caustics_data := caustics_tex caustics_texcoord in
  let albedo :=
    add (xyz (tex texcoord)) (scale (v4w caustics_data) (xyz caustics_data)) in
  let color := mul albedo ambient_light in
  let sun_impact := diffuse sun_direction + specular sun_direction in
  let color := add color (mul (rscale albedo sun_impact) sun_light) in
  vec4_of color 1.0.

End Shader.
End FloorFS.

(** ** The water mesh built by [main]: two triangles per grid cell *)

Module Mesh.

(** The six [push_back] of the body of the inner loop. *)
Definition cell_points (i j : Z) (floor_width floor_height : R)
  (width_water_cnt height_water_cnt : Z) : list vec2 :=
  [ Host.get_water_position i j floor_width floor_height width_water_cnt height_water_cnt;
    Host.get_water_position i (j + 1) floor_width floor_height width_water_cnt height_water_cnt;
    Host.get_water_position (i + 1) j floor_width floor_height width_water_cnt height_water_cnt;
    Host.get_water_position (i + 1) j floor_width floor_height width_water_cnt height_water_cnt;
    Host.get_water_position i (j + 1) floor_width floor_height width_water_cnt height_water_cnt;
    Host.get_water_position (i + 1) (j + 1) floor_width floor_height
      width_water_cnt height_water_cnt ].

(** [for i in 0 .. width_water_cnt - 1, for j in 0 .. height_water_cnt - 1]. *)
Definition water_points (floor_width floor_height : R)
  (width_water_cnt height_water_cnt : nat) : list vec2 :=
  flat_map
    (fun i =>
       flat_map
         (fun j =>
            cell_points (Z.of_nat i) (Z.of_nat j) floor_width floor_height
              (Z.of_nat width_water_cnt) (Z.of_nat height_water_cnt))
         (seq 0 height_water_cnt))
    (seq 0 width_water_cnt).

End Mesh.

(** ** Key presses polled by the loop *)

Module Input.

(** How many [SDL_KEYDOWN] events of the key P a poll holds. *)
Fixpoint pause_presses (events : list Host.sdl_event) : nat :=
  match events with
  | [] => 0
  | Host.SDL_KEYDOWN Host.SDLK_p :: rest => S (pause_presses rest)
  | _ :: rest => pause_presses rest
  end.

(** The buffer events of one frame; [depth] is the state of GL_DEPTH_TEST
    the frame starts in. *)
Definition frame_log_of (depth : bool) : list Host.event :=
  [ Host.Cleared Host.caustics_fbo (Vec4 0 0 0 0);
    Host.Drawn Host.caustics_program Host.caustics_fbo [] true depth;
    Host.Cleared Host.window_framebuffer (Vec4 0.8 0.8 1 0);
    Host.Drawn Host.env_program Host.window_framebuffer [Some Host.env_tex] false false;
    Host.Drawn Host.floor_program Host.window_framebuffer
      [Some Host.tex; Some Host.caustics_tex] false true;
    Host.Drawn Host.water_program Host.window_framebuffer
      [Some Host.env_tex; Some Host.tex; Some Host.caustics_tex] false true;
    Host.Presented ].

End Input.

(** ** The first statements of the refraction routine in binary32

    A GLSL [float] as an IEEE 754 binary32 number (24 bits of precision),
    every operation rounded to nearest even; [dot] sums its three products
    from left to right, [normalize] divides by the square root of [dot]. *)

Module Binary32.

Definition prec : Z := 24%Z.
Definition emax : Z := 128%Z.

Definition float : Type := SpecFloat.spec_float.

(** The float nearest to [m * 2^e]. *)
Definition of_scaled (m e : Z) : float := SpecFloat.binary_normalize prec emax m e false.

Definition zero : float := of_scaled 0 0.
Definition one : float := of_scaled 1 0.

Definition add : float -> float -> float := SpecFloat.SFadd prec emax.
Definition sub : float -> float -> float := SpecFloat.SFsub prec emax.
Definition mul : float -> float -> float := SpecFloat.SFmul prec emax.
Definition div : float -> float -> float := SpecFloat.SFdiv prec emax.
Definition sqrt : float -> float := SpecFloat.SFsqrt prec emax.
Definition opp : float -> float := SpecFloat.SFopp.
Definition ltb : float -> float -> bool := SpecFloat.SFltb.

Record vec3 : Type := Vec3 { x : float; y : float; z : float }.

Definition dot (a b : vec3) : float :=
  add (add (mul (x a) (x b)) (mul (y a) (y b))) (mul (z a) (z b)).

Definition length (a : vec3) : float := sqrt (dot a a).

Definition normalize (a : vec3) : vec3 :=
  let l := length a in
  Vec3 (div (x a) l) (div (y a) l) (div (z a) l).

Definition vsub (a b : vec3) : vec3 :=
  Vec3 (sub (x a) (x b)) (sub (y a) (y b)) (sub (z a) (z b)).

(** [float cosine = dot(normalize(normal), direction);] *)
Definition cosine (normal direction : vec3) : float :=
  dot (normalize normal) direction.

(** The argument of the square root of
    [float sine = sqrt(1 - cosine * cosine);] *)
Definition sine_argument (normal direction : vec3) : float :=
  let cosine := cosine normal direction in
  sub one (mul cosine cosine).

Definition sine (normal direction : vec3) : float :=
  sqrt (sine_argument normal direction).

(** The normal of the water vertex shader,
    [normalize(vec3(-dhdx(), 1.0, -dhdy()))], for given slopes. *)
Definition vertex_normal (dhdx dhdy : float) : vec3 :=
  normalize (Vec3 (opp dhdx) one (opp dhdy)).

(** [vec3 view_direction = normalize(camera_position - position);] *)
Definition view_direction (camera_position position : vec3) : vec3 :=
  normalize (vsub camera_position position).

End Binary32.

(** ** Wave field: the slopes are the partial derivatives of the height *)

Lemma wave_term_sin_deriv (a c k p : R) :
  derivable_pt_lim (fun u => a * sin (k * u + c)) p (a * k * cos (k * p + c)).
Proof.
  replace (a * k * cos (k * p + c)) with (a * (cos (k * p + c) * (k * 1 + 0))) by ring.
  apply derivable_pt_lim_scal.
  apply (derivable_pt_lim_comp (fun u => k * u + c) sin).
  - apply derivable_pt_lim_plus.
    + apply derivable_pt_lim_scal. apply derivable_pt_lim_id.
    + apply derivable_pt_lim_const.
  - apply derivable_pt_lim_sin.
Qed.

Lemma wave_term_cos_deriv (a c k p : R) :
  derivable_pt_lim (fun u => a * cos (k * u + c)) p (- (a * k) * sin (k * p + c)).
Proof.
  replace (- (a * k) * sin (k * p + c)) with (a * (- sin (k * p + c) * (k * 1 + 0))) by ring.
  apply derivable_pt_lim_scal.
  apply (derivable_pt_lim_comp (fun u => k * u + c) cos).
  - apply derivable_pt_lim_plus.
    + apply derivable_pt_lim_scal. apply derivable_pt_lim_id.
    + apply derivable_pt_lim_const.
  - apply derivable_pt_lim_cos.
Qed.

Lemma derivable_pt_lim_ext (f g : R -> R) (p l m : R) :
  (forall u, f u = g u) -> l = m -> derivable_pt_lim f p l -> derivable_pt_lim g p m.
Proof.
  intros Hfg Hlm Hf. subst m.
  intros eps Heps. destruct (Hf eps Heps) as [delta Hd].
  exists delta. intros h Hh Hlt. rewrite <- !Hfg. now apply Hd.
Qed.

Lemma height_x_deriv (x z t : R) :
  derivable_pt_lim
    (fun u => 5 + (0.5 * sin (u + t) + 0.2 * cos (z + 3 * t) + 0.1 * sin (u + 2 * z + t)))
    x (0.5 * cos (x + t) + 0.1 * cos (x + 2 * z + t)).
Proof.
  apply (derivable_pt_lim_ext
    (plus_fct (fun _ => 5)
       (plus_fct (plus_fct (fun u => 0.5 * sin (1 * u + t)) (fun _ => 0.2 * cos (z + 3 * t)))
                 (fun u => 0.1 * sin (1 * u + (2 * z + t)))))
    _ x
    (0 + (0.5 * 1 * cos (1 * x + t) + 0 + 0.1 * 1 * cos (1 * x + (2 * z + t))))).
  - intros u. unfold plus_fct.
    replace (1 * u + t) with (u + t) by ring.
    replace (1 * u + (2 * z + t)) with (u + 2 * z + t) by ring. ring.
  - replace (1 * x + t) with (x + t) by ring.
    replace (1 * x + (2 * z + t)) with (x + 2 * z + t) by ring. lra.
  - repeat apply derivable_pt_lim_plus;
      first [ apply derivable_pt_lim_const | apply wave_term_sin_deriv ].
Qed.

Lemma height_z_deriv (x z t : R) :
  derivable_pt_lim
    (fun u => 5 + (0.5 * sin (x + t) + 0.2 * cos (u + 3 * t) + 0.1 * sin (x + 2 * u + t)))
    z (-0.2 * sin (z + 3 * t) + 0.2 * cos (x + 2 * z + t)).
Proof.
  apply (derivable_pt_lim_ext
    (plus_fct (fun _ => 5)
       (plus_fct (plus_fct (fun _ => 0.5 * sin (x + t)) (fun u => 0.2 * cos (1 * u + 3 * t)))
                 (fun u => 0.1 * sin (2 * u + (x + t)))))
    _ z
    (0 + (0 + - (0.2 * 1) * sin (1 * z + 3 * t) + 0.1 * 2 * cos (2 * z + (x + t))))).
  - intros u. unfold plus_fct.
    replace (1 * u + 3 * t) with (u + 3 * t) by ring.
    replace (2 * u + (x + t)) with (x + 2 * u + t) by ring. ring.
  - replace (1 * z + 3 * t) with (z + 3 * t) by ring.
    replace (2 * z + (x + t)) with (x + 2 * z + t) by ring. lra.
  - repeat apply derivable_pt_lim_plus;
      first [ apply derivable_pt_lim_const | apply wave_term_sin_deriv
            | apply wave_term_cos_deriv ].
Qed.

(** C5. For all (x, z, t) the slope functions [dhdx] and [dhdy] are the
    partial derivatives of [get_height] in x and in z, where
    [get_height] is 5 + 0.5 sin(x+t) + 0.2 cos(z+3t) + 0.1 sin(x+2z+t), in the
    water vertex shader and in the caustic vertex shader alike. *)
Theorem wave_slopes_are_exact_derivatives (x z t : R) :
  WaterVS.get_height t (Vec2 x z)
    = 5 + 0.5 * sin (x + t) + 0.2 * cos (z + 3 * t) + 0.1 * sin (x + 2 * z + t)
  /\ derivable_pt_lim (fun u => WaterVS.get_height t (Vec2 u z)) x (WaterVS.dhdx t (Vec2 x z))
  /\ derivable_pt_lim (fun u => WaterVS.get_height t (Vec2 x u)) z (WaterVS.dhdy t (Vec2 x z))
  /\ CausticVS.get_height t (Vec2 x z) = WaterVS.get_height t (Vec2 x z)
  /\ derivable_pt_lim (fun u => CausticVS.get_height t (Vec2 u z)) x (CausticVS.dhdx t (Vec2 x z))
  /\ derivable_pt_lim (fun u => CausticVS.get_height t (Vec2 x u)) z (CausticVS.dhdy t (Vec2 x z)).
Proof.
  unfold WaterVS.get_height, WaterVS.dhdx, WaterVS.dhdy,
         CausticVS.get_height, CausticVS.dhdx, CausticVS.dhdy; cbn [v2x v2y].
  repeat split;
    first [ ring | reflexivity | apply height_x_deriv | apply height_z_deriv ].
Qed.

(** ** Vectors *)

Lemma vec3_eta (a : vec3) : Vec3 (v3x a) (v3y a) (v3z a) = a.
Proof. now destruct a. Qed.

Lemma dot_self_nonneg (a : vec3) : 0 <= dot a a.
Proof. unfold dot. nra. Qed.

Lemma length_unit (a : vec3) : dot a a = 1 -> length a = 1.
Proof. intros H. unfold length. rewrite H. apply sqrt_1. Qed.

Lemma normalize_unit (a : vec3) : dot a a = 1 -> normalize a = a.
Proof.
  intros H. unfold normalize, rdiv. rewrite (length_unit a H).
  destruct a as [ax ay az]; cbn. f_equal; field.
Qed.

(** Cauchy-Schwarz for unit vectors. *)
Lemma dot_unit_sqr_le_1 (a b : vec3) :
  dot a a = 1 -> dot b b = 1 -> dot a b * dot a b <= 1.
Proof.
  destruct a as [ax ay az], b as [bx b_y bz]; unfold dot; cbn. intros Ha Hb.
  assert (H : (ax * bx + ay * b_y + az * bz) * (ax * bx + ay * b_y + az * bz)
              <= (ax * ax + ay * ay + az * az) * (bx * bx + b_y * b_y + bz * bz)).
  { assert (L : (ax * ax + ay * ay + az * az) * (bx * bx + b_y * b_y + bz * bz)
                - (ax * bx + ay * b_y + az * bz) * (ax * bx + ay * b_y + az * bz)
                = (ax * b_y - ay * bx) * (ax * b_y - ay * bx)
                  + (ax * bz - az * bx) * (ax * bz - az * bx)
                  + (ay * bz - az * b_y) * (ay * bz - az * b_y)) by ring.
    pose proof (Rle_0_sqr (ax * b_y - ay * bx)) as S1.
    pose proof (Rle_0_sqr (ax * bz - az * bx)) as S2.
    pose proof (Rle_0_sqr (ay * bz - az * b_y)) as S3.
    unfold Rsqr in S1, S2, S3. lra. }
  rewrite Ha, Hb in H. lra.
Qed.

Lemma gtb_true (a b : R) : b < a -> gtb a b = true.
Proof. intros H. unfold gtb. destruct (Rlt_dec b a); [reflexivity | contradiction]. Qed.

Lemma ltb_true (a b : R) : a < b -> ltb a b = true.
Proof. intros H. unfold ltb. destruct (Rlt_dec a b); [reflexivity | contradiction]. Qed.

Lemma gtb_spec (a b : R) : gtb a b = true <-> b < a.
Proof.
  unfold gtb. destruct (Rlt_dec b a); split; intros; try discriminate; tauto.
Qed.

Lemma ltb_spec (a b : R) : ltb a b = true <-> a < b.
Proof.
  unfold ltb. destruct (Rlt_dec a b); split; intros; try discriminate; tauto.
Qed.

(** ** The reflectance of the shaders is Schlick's *)

Lemma water_coef_schlick (n1 n2 c : R) : WaterFS.coef n1 n2 c = Spec.schlick n1 n2 c.
Proof. unfold WaterFS.coef, Spec.schlick, Spec.R0, pow5. ring. Qed.

Lemma caustic_coef_schlick (n1 n2 c : R) : CausticFS.coef n1 n2 c = Spec.schlick n1 n2 c.
Proof. unfold CausticFS.coef, Spec.schlick, Spec.R0, pow5. ring. Qed.

Lemma R0_water_bounds : 0 < Spec.R0 1.0 1.333 < 1.
Proof. unfold Spec.R0. lra. Qed.

Lemma schlick_decreasing (n1 n2 c1 c2 : R) :
  Spec.R0 n1 n2 <= 1 -> 0 <= c1 -> c1 <= c2 -> c2 <= 1 ->
  Spec.schlick n1 n2 c2 <= Spec.schlick n1 n2 c1.
Proof.
  intros HR H0 H12 H1. unfold Spec.schlick.
  assert (Hp : (1 - c2) ^ 5 <= (1 - c1) ^ 5) by (apply pow_incr; lra).
  nra.
Qed.

(** C7. For cos_theta in [0,1] the reflectance the shaders compute,
    R0 + (1 - R0)(1 - cos_theta)^5 with R0 = ((n1-n2)/(n1+n2))^2, does not
    increase when cos_theta grows, it is 1 at cos_theta = 0, and with the
    transmit weight 1 - R used beside it R + T = 1 for any input. *)
Theorem schlick_reflectance_split (c1 c2 c : R) (sun_light sun_direction normal : vec3) :
  0 <= c1 -> c1 <= c2 -> c2 <= 1 ->
  WaterFS.coef 1.0 1.333 c = Spec.schlick 1.0 1.333 c
  /\ CausticFS.coef 1.0 1.333 c = Spec.schlick 1.0 1.333 c
  /\ WaterFS.coef 1.0 1.333 c2 <= WaterFS.coef 1.0 1.333 c1
  /\ WaterFS.coef 1.0 1.333 0 = 1
  /\ WaterFS.coef 1.0 1.333 c + (1 - WaterFS.coef 1.0 1.333 c) = 1
  /\ CausticFS.coef 1.0 1.333 (dot (normalize normal) sun_direction)
     + v4w (CausticFS.main sun_light sun_direction normal) = 1.
Proof.
  intros H0 H12 H1.
  split; [apply water_coef_schlick|].
  split; [apply caustic_coef_schlick|].
  split.
  { rewrite !water_coef_schlick. apply schlick_decreasing; try assumption.
    pose proof R0_water_bounds. lra. }
  split.
  { rewrite water_coef_schlick. unfold Spec.schlick. ring. }
  split; [ring|].
  unfold CausticFS.main, vec4_of; cbn [v4w]. lra.
Qed.

Lemma schlick_reflectance_split_witness :
  WaterFS.coef 1.0 1.333 0.5 <= WaterFS.coef 1.0 1.333 0.25.
Proof.
  apply (schlick_reflectance_split 0.25 0.5 0 (Vec3 1 1 1) (Vec3 0 1 0) (Vec3 0 1 0)); lra.
Defined.

(** ** The water pass *)

Lemma on_floor_spec (floor_width floor_height : R) (p : vec3) :
  WaterFS.on_floor floor_width floor_height p = true
  <-> (0 < v3x p < floor_width /\ 0 < v3z p < floor_height).
Proof.
  unfold WaterFS.on_floor. rewrite !andb_true_iff, !gtb_spec, !ltb_spec. tauto.
Qed.

Section WaterPass.

Variables (camera_position ambient_light sun_light sun_direction : vec3).
Variable tex : vec3 -> vec4.
Variables floor_tex caustics_tex : vec2 -> vec4.
Variables floor_width floor_height : R.
Variables position normal : vec3.

Local Abbreviation get_refract :=
  (WaterFS.get_refract ambient_light sun_light sun_direction
     tex floor_tex caustics_tex floor_width floor_height position normal).
Local Abbreviation get_floor :=
  (WaterFS.get_floor ambient_light sun_light sun_direction floor_tex caustics_tex).
Local Abbreviation landing := (WaterFS.refracted_position position normal).

(** C2, as the shader has it. In the water pass the Schlick split is taken
    at cos_theta = dot(normalize(N), sun_direction), the light direction, and
    the output colour is reflect_weight * reflected_color + transmit_weight *
    transmitted_color with transmit_weight = 1 - reflect_weight, where the
    reflected colour is the backdrop along the mirrored viewer direction and
    the transmitted colour is the refraction routine's at the viewer
    direction V = normalize(camera_position - P). *)
Theorem water_main_blends_at_light_cosine :
  let V := normalize (sub camera_position position) in
  WaterFS.main camera_position ambient_light sun_light sun_direction
    tex floor_tex caustics_tex floor_width floor_height position normal
  = Spec.composite 1.0 1.333 (dot (normalize normal) sun_direction)
      (xyz (tex (WaterFS.reflect normal V)))
      (get_refract V 1.0 1.333).
Proof.
  intros V. unfold WaterFS.main, Spec.composite. fold V.
  rewrite water_coef_schlick. unfold vec4_of. f_equal. lra.
Qed.

End WaterPass.

(** ** The refraction routine at normal incidence on flat water *)

Lemma refracted_position_flat (P : vec3) (n1 n2 : R) :
  n2 <> 0 ->
  WaterFS.refracted_position P (Vec3 0 1 0) (Vec3 0 1 0) n1 n2
  = Vec3 (v3x P) 0 (v3y P + (v3z P - v3y P) * n1 / n2).
Proof.
  intros Hn. unfold WaterFS.refracted_position.
  rewrite normalize_unit by (unfold dot; cbn; ring).
  replace (dot (Vec3 0 1 0) (Vec3 0 1 0)) with 1 by (unfold dot; cbn; ring).
  replace (1 - 1 * 1) with 0 by ring. rewrite sqrt_0.
  replace (n1 * 0 / n2) with 0 by (field; assumption).
  replace (1 - 0 * 0) with 1 by ring. rewrite sqrt_1.
  unfold add, sub, rdiv, rscale; cbn. f_equal; field; assumption.
Qed.

Lemma caustic_get_refract_is_refracted_position (D : vec3) (n1 n2 : R) (N P : vec3) :
  CausticVS.get_refract D n1 n2 N P = WaterFS.refracted_position P N D n1 n2.
Proof. reflexivity. Qed.

(** ** The light of the host program *)

Lemma light_length_gt_1 : 1 < length (Vec3 0.9 1 (-0.2)).
Proof.
  unfold length. rewrite <- sqrt_1 at 1. apply sqrt_lt_1_alt.
  unfold dot; cbn. lra.
Qed.

Lemma light_direction_y : 0 < v3y Host.light_direction < 1.
Proof.
  unfold Host.light_direction, normalize, rdiv; cbn.
  pose proof light_length_gt_1 as H.
  set (l := length (Vec3 0.9 1 (-0.2))) in *.
  assert (Hl : l * / l = 1) by (apply Rinv_r; lra).
  assert (Hi : 0 < / l) by (apply Rinv_0_lt_compat; lra).
  unfold Rdiv. nra.
Qed.

Lemma light_direction_unit : dot Host.light_direction Host.light_direction = 1.
Proof.
  unfold Host.light_direction, normalize, rdiv, dot; cbn.
  pose proof light_length_gt_1 as H.
  assert (Hs : length (Vec3 0.9 1 (-0.2)) * length (Vec3 0.9 1 (-0.2))
               = dot (Vec3 0.9 1 (-0.2)) (Vec3 0.9 1 (-0.2))).
  { unfold length. apply sqrt_sqrt. apply dot_self_nonneg. }
  unfold dot in Hs; cbn in Hs.
  set (l := length (Vec3 0.9 1 (-0.2))) in *.
  assert (Hl : l <> 0) by lra.
  apply (Rmult_eq_reg_r (l * l)); [|nra].
  field_simplify; [|assumption]. lra.
Qed.

Lemma schlick_above_R0 (c : R) :
  c < 1 -> Spec.R0 1.0 1.333 < Spec.schlick 1.0 1.333 c.
Proof.
  intros Hc. unfold Spec.schlick.
  assert (Hp : 0 < (1 - c) ^ 5) by (apply pow_lt; lra).
  pose proof R0_water_bounds. nra.
Qed.

Lemma schlick_at_1 : Spec.schlick 1.0 1.333 1 = Spec.R0 1.0 1.333.
Proof. unfold Spec.schlick. ring. Qed.

Lemma sqrt_Rmax_0 (x : R) : sqrt (Rmax 0 x) = sqrt x.
Proof.
  destruct (Rle_dec 0 x) as [H|H].
  - now rewrite Rmax_right.
  - rewrite Rmax_left by lra. rewrite sqrt_0. symmetry. apply sqrt_neg_0. lra.
Qed.

(** The landing point of the shaders against the landing point of the
    specification: the x coordinates agree, and the z coordinate starts from
    the height [Py] where the specification starts from [Pz]
    ([projection_position] is [vec3(position.x, 0.0, position.y)]). *)
Lemma refracted_position_vs_spec (P D N : vec3) (n1 n2 : R) :
  dot N N = 1 ->
  let k := (n1 / n2) * (Spec.cos_i N D / Spec.cos_t n1 n2 N D) in
  WaterFS.refracted_position P N D n1 n2
  = add (Spec.landing_point n1 n2 P D N) (Vec3 0 0 ((v3y P - v3z P) * (1 - k))).
Proof.
  intros HN k. subst k.
  unfold WaterFS.refracted_position, Spec.landing_point, Spec.cos_t, Spec.sin_t,
    Spec.sin_i, Spec.cos_i, Spec.straight_floor_hit, Spec.horizontal_projection.
  rewrite (normalize_unit N HN). rewrite !sqrt_Rmax_0.
  replace (dot N D ^ 2) with (dot N D * dot N D) by ring.
  set (c := dot N D). set (s := sqrt (1 - c * c)).
  replace ((n1 * s / n2) ^ 2) with (n1 * s / n2 * (n1 * s / n2)) by ring.
  set (rc := sqrt (1 - n1 * s / n2 * (n1 * s / n2))).
  unfold add, sub, scale, rdiv, rscale, Rdiv; cbn. f_equal; ring.
Qed.

(** C1 at a failing input. For P = (20, 5, 2) under a flat normal and normal
    incidence the specified landing point is P's horizontal projection
    (20, 0, 2); the routine of both shaders lands at depth
    5 + (2 - 5) * n1 / n2, because it projects P to (Px, 0, Py). *)
Theorem refract_landing_projects_to_height :
  let P := Vec3 20 5 2 in
  let N := Vec3 0 1 0 in
  let D := Vec3 0 1 0 in
  Spec.landing_point 1.0 1.333 P D N = Vec3 20 0 2
  /\ WaterFS.refracted_position P N D 1.0 1.333 = Vec3 20 0 (5 + (2 - 5) * 1.0 / 1.333)
  /\ CausticVS.get_refract D 1.0 1.333 N P = Vec3 20 0 (5 + (2 - 5) * 1.0 / 1.333)
  /\ WaterFS.refracted_position P N D 1.0 1.333 <> Spec.landing_point 1.0 1.333 P D N.
Proof.
  intros P N D.
  assert (Hs : Spec.landing_point 1.0 1.333 P D N = Vec3 20 0 2).
  { unfold Spec.landing_point, Spec.straight_floor_hit, Spec.horizontal_projection,
      add, sub, scale; cbn. f_equal; unfold Rdiv; ring. }
  assert (Hc : WaterFS.refracted_position P N D 1.0 1.333
               = Vec3 20 0 (5 + (2 - 5) * 1.0 / 1.333)).
  { unfold P, N, D. rewrite refracted_position_flat by lra. reflexivity. }
  repeat split; try assumption.
  rewrite Hc, Hs. intros H. injection H as H. lra.
Qed.

(** C4 at a failing input. For P = (0, 5, 0), flat normal and normal
    incidence, the straight ray meets the floor at (0, 0, 0); the routine
    returns depth 5 - 5 * n1 / n2 with the indices of the water pass and of
    the caustics pass alike. *)
Theorem flat_normal_incidence_landing_bends :
  let P := Vec3 0 5 0 in
  let N := Vec3 0 1 0 in
  let D := Vec3 0 1 0 in
  Spec.straight_floor_hit P D = Vec3 0 0 0
  /\ WaterFS.refracted_position P N D 1.0 1.333 = Vec3 0 0 (5 + (0 - 5) * 1.0 / 1.333)
  /\ CausticVS.get_refract D 1.0 1.33 N P = Vec3 0 0 (5 + (0 - 5) * 1.0 / 1.33)
  /\ WaterFS.refracted_position P N D 1.0 1.333 <> Spec.straight_floor_hit P D
  /\ CausticVS.get_refract D 1.0 1.33 N P <> Spec.straight_floor_hit P D.
Proof.
  intros P N D.
  assert (Hs : Spec.straight_floor_hit P D = Vec3 0 0 0).
  { unfold Spec.straight_floor_hit; cbn. f_equal; unfold Rdiv; ring. }
  assert (Hw : WaterFS.refracted_position P N D 1.0 1.333
               = Vec3 0 0 (5 + (0 - 5) * 1.0 / 1.333)).
  { unfold P, N, D. rewrite refracted_position_flat by lra. reflexivity. }
  assert (Hc : CausticVS.get_refract D 1.0 1.33 N P
               = Vec3 0 0 (5 + (0 - 5) * 1.0 / 1.33)).
  { rewrite caustic_get_refract_is_refracted_position.
    unfold P, N, D. rewrite refracted_position_flat by lra. reflexivity. }
  repeat split; try assumption.
  - rewrite Hw, Hs. intros H. injection H as H. lra.
  - rewrite Hc, Hs. intros H. injection H as H. lra.
Qed.

(** ** The water pass seen from straight above *)

Lemma view_from_above :
  normalize (sub (Vec3 20 6 5) (Vec3 20 5 5)) = Vec3 0 1 0.
Proof.
  assert (E : sub (Vec3 20 6 5) (Vec3 20 5 5) = Vec3 0 1 0)
    by (unfold sub; cbn; f_equal; ring).
  rewrite E. apply normalize_unit. unfold dot; cbn. ring.
Qed.

Lemma scene_refract_from_above :
  Scene.water_get_refract (Vec3 20 5 5) (Vec3 0 1 0) (Vec3 0 1 0) 1.0 1.333 = Vec3 0 0 0.
Proof.
  unfold Scene.water_get_refract, WaterFS.get_refract.
  rewrite refracted_position_flat by lra. cbn [v3x v3y v3z].
  replace (5 + (5 - 5) * 1.0 / 1.333) with 5 by lra.
  assert (F : WaterFS.on_floor Host.floor_width Host.floor_height (Vec3 20 0 5) = true).
  { apply on_floor_spec. unfold Host.floor_width, Host.floor_height; cbn. lra. }
  rewrite F.
  unfold WaterFS.get_floor, Scene.black_floor, Scene.no_caustics, add, mul, scale, rscale, xyz;
    cbn. f_equal; ring.
Qed.

(** C2, the claim as stated, at a concrete input: seen from straight above
    (camera at (20, 6, 5) over the surface point (20, 5, 5), flat normal)
    under the light of the host program, the shader's colour is not the blend
    taken at cos_theta = dot(N, V). *)
Lemma water_main_not_at_viewer_cosine :
  let camera_position := Vec3 20 6 5 in
  let position := Vec3 20 5 5 in
  let normal := Vec3 0 1 0 in
  let V := normalize (sub camera_position position) in
  Scene.water_main camera_position position normal
  <> Spec.composite 1.0 1.333 (dot normal V)
       (xyz (Scene.white_backdrop (WaterFS.reflect normal V)))
       (Scene.water_get_refract position normal V 1.0 1.333).
Proof.
  cbv zeta. unfold Scene.water_main, WaterFS.main. cbv zeta.
  rewrite water_coef_schlick, !view_from_above.
  fold (Scene.water_get_refract (Vec3 20 5 5) (Vec3 0 1 0) (Vec3 0 1 0) 1.0 1.333).
  rewrite scene_refract_from_above.
  rewrite (normalize_unit (Vec3 0 1 0)) by (unfold dot; cbn; ring).
  replace (dot (Vec3 0 1 0) (Vec3 0 1 0)) with 1 by (unfold dot; cbn; ring).
  replace (dot (Vec3 0 1 0) Host.light_direction) with (v3y Host.light_direction)
    by (unfold dot; cbn; ring).
  pose proof (schlick_above_R0 (v3y Host.light_direction) (proj2 light_direction_y)) as Hlt.
  rewrite <- schlick_at_1 in Hlt.
  unfold Spec.composite.
  set (rs := Spec.schlick 1.0 1.333 (v3y Host.light_direction)) in *.
  set (rv := Spec.schlick 1.0 1.333 1) in *. clearbody rs rv.
  unfold Scene.white_backdrop, vec4_of, add, scale, xyz; cbn.
  intros H. injection H as H _ _. lra.
Qed.

(** ** The floor test of the water pass at an oblique viewer direction *)

Lemma oblique_cos_i : Spec.cos_i (Vec3 0 1 0) (Vec3 0 0.8 0.6) = 0.8.
Proof. unfold Spec.cos_i, dot; cbn. ring. Qed.

Lemma oblique_sin_i : Spec.sin_i (Vec3 0 1 0) (Vec3 0 0.8 0.6) = 0.6.
Proof.
  unfold Spec.sin_i. rewrite sqrt_Rmax_0, oblique_cos_i.
  replace (1 - 0.8 ^ 2) with (0.6 * 0.6) by lra. apply sqrt_square. lra.
Qed.

Lemma oblique_cos_t :
  0.89 < Spec.cos_t 1.0 1.333 (Vec3 0 1 0) (Vec3 0 0.8 0.6) < 0.9.
Proof.
  unfold Spec.cos_t, Spec.sin_t. rewrite sqrt_Rmax_0, oblique_sin_i.
  split.
  - rewrite <- (sqrt_square 0.89) at 1 by lra. apply sqrt_lt_1_alt. lra.
  - rewrite <- (sqrt_square 0.9) at 1 by lra. apply sqrt_lt_1_alt. lra.
Qed.

Lemma oblique_scale :
  0.66 < (1.0 / 1.333)
         * (Spec.cos_i (Vec3 0 1 0) (Vec3 0 0.8 0.6)
            / Spec.cos_t 1.0 1.333 (Vec3 0 1 0) (Vec3 0 0.8 0.6)) < 0.68.
Proof.
  rewrite oblique_cos_i. pose proof oblique_cos_t as [H1 H2].
  set (rc := Spec.cos_t 1.0 1.333 (Vec3 0 1 0) (Vec3 0 0.8 0.6)) in *.
  assert (Hi : 0 < / rc) by (apply Rinv_0_lt_compat; lra).
  assert (Hone : rc * / rc = 1) by (apply Rinv_r; lra).
  assert (Hlo : 1.11 < / rc) by nra.
  assert (Hhi : / rc < 1.125) by nra.
  unfold Rdiv. split; nra.
Qed.

(** C8 at a failing input. For the surface point P = (20, 5, 2), the flat
    normal and the unit viewer direction D = (0, 0.8, 0.6), the landing point
    of the specification has z < 0, outside the floor, so the claim has the
    backdrop sampled along normalize(landing - P); the routine lands at
    (20, 0, z) with 0 < z < 8, because it projects P to (Px, 0, Py), and
    returns the floor: over a white backdrop and a black floor it returns
    black where the claim has white. *)
Theorem water_refract_floor_test_on_shifted_landing :
  let P := Vec3 20 5 2 in
  let N := Vec3 0 1 0 in
  let D := Vec3 0 0.8 0.6 in
  let spec_landing := Spec.landing_point 1.0 1.333 P D N in
  let code_landing := WaterFS.refracted_position P N D 1.0 1.333 in
  dot N N = 1 /\ dot D D = 1
  /\ v3z spec_landing < 0
  /\ WaterFS.on_floor Host.floor_width Host.floor_height spec_landing = false
  /\ v3x code_landing = 20 /\ 0 < v3z code_landing < 1
  /\ WaterFS.on_floor Host.floor_width Host.floor_height code_landing = true
  /\ Scene.water_get_refract P N D 1.0 1.333 = Vec3 0 0 0
  /\ Scene.water_get_refract P N D 1.0 1.333
     <> xyz (Scene.white_backdrop (normalize (sub spec_landing P))).
Proof.
  intros P N D spec_landing code_landing.
  assert (HN : dot N N = 1) by (unfold dot; cbn; ring).
  assert (HD : dot D D = 1) by (unfold dot; cbn; lra).
  pose proof oblique_scale as Hk. fold N in Hk. fold D in Hk.
  pose proof (refracted_position_vs_spec P D N 1.0 1.333 HN) as Hc.
  cbv zeta in Hc. fold spec_landing in Hc. fold code_landing in Hc.
  assert (Hsx : v3x spec_landing = 20).
  { unfold spec_landing, Spec.landing_point, Spec.straight_floor_hit,
      Spec.horizontal_projection, add, sub, scale; cbn. unfold Rdiv. ring. }
  assert (Hsz : v3z spec_landing
                = 2 - 3.75 * (1.0 / 1.333 * (Spec.cos_i N D / Spec.cos_t 1.0 1.333 N D))).
  { unfold spec_landing, Spec.landing_point, Spec.straight_floor_hit,
      Spec.horizontal_projection, add, sub, scale; cbn [v3x v3y v3z P D].
    set (k := 1.0 / 1.333 * (Spec.cos_i N D / Spec.cos_t 1.0 1.333 N D)).
    clearbody k. lra. }
  revert Hk Hc Hsz.
  generalize (1.0 / 1.333 * (Spec.cos_i N D / Spec.cos_t 1.0 1.333 N D)).
  intros k Hk Hc Hsz.
  assert (Hcx : v3x code_landing = 20).
  { rewrite Hc. unfold add; cbn [v3x]. lra. }
  assert (Hcz : v3z code_landing = 5 - 6.75 * k).
  { rewrite Hc. unfold add; cbn [v3z v3y P]. lra. }
  assert (Hoff : WaterFS.on_floor Host.floor_width Host.floor_height spec_landing = false).
  { destruct (WaterFS.on_floor Host.floor_width Host.floor_height spec_landing) eqn:E;
      [|reflexivity].
    apply on_floor_spec in E. lra. }
  assert (Hon : WaterFS.on_floor Host.floor_width Host.floor_height code_landing = true).
  { apply on_floor_spec. unfold Host.floor_width, Host.floor_height. lra. }
  assert (Hfloor : Scene.water_get_refract P N D 1.0 1.333 = Vec3 0 0 0).
  { unfold Scene.water_get_refract, WaterFS.get_refract. fold code_landing. rewrite Hon.
    unfold WaterFS.get_floor, Scene.black_floor, Scene.no_caustics, add, mul, scale, rscale, xyz;
      cbn. f_equal; ring. }
  repeat split; try assumption; try lra.
  rewrite Hfloor. unfold Scene.white_backdrop, xyz; cbn.
  intros H. injection H as H _ _. lra.
Qed.

(** ** Normalised vectors *)

Lemma length_sqr (a : vec3) : length a * length a = dot a a.
Proof. unfold length. apply sqrt_sqrt. apply dot_self_nonneg. Qed.

Lemma length_pos (a : vec3) : 0 < dot a a -> 0 < length a.
Proof. intros H. unfold length. now apply sqrt_lt_R0. Qed.

Lemma normalize_is_unit (a : vec3) :
  0 < dot a a -> dot (normalize a) (normalize a) = 1.
Proof.
  intros H. pose proof (length_pos a H) as Hl. pose proof (length_sqr a) as Hs.
  unfold normalize, rdiv. unfold dot at 1; cbn [v3x v3y v3z].
  set (l := length a) in *.
  replace (v3x a / l * (v3x a / l) + v3y a / l * (v3y a / l) + v3z a / l * (v3z a / l))
    with (dot a a / (l * l)) by (unfold dot; field; lra).
  rewrite Hs. field. lra.
Qed.

Lemma normalize_idem (a : vec3) : 0 < dot a a -> normalize (normalize a) = normalize a.
Proof. intros H. apply normalize_unit. now apply normalize_is_unit. Qed.

Lemma dot_normalize (a b : vec3) :
  dot (normalize a) (normalize b) = dot a b * / (length a * length b).
Proof.
  destruct (Req_dec_T (length a) 0) as [Ha|Ha].
  - unfold normalize, rdiv, dot; cbn. rewrite Ha. unfold Rdiv. rewrite Rmult_0_l, !Rinv_0. ring.
  - destruct (Req_dec_T (length b) 0) as [Hb|Hb].
    + unfold normalize, rdiv, dot; cbn. rewrite Hb. unfold Rdiv.
      rewrite Rmult_0_r, !Rinv_0. ring.
    + unfold normalize, rdiv, dot; cbn. field. split; assumption.
Qed.

(** ** The caustics pass at the first vertex of the grid, at time 0 *)

Lemma first_vertex : Host.get_water_position 0 0 Host.floor_width Host.floor_height
                       Host.width_water_cnt Host.height_water_cnt = Vec2 0 0.
Proof. unfold Host.get_water_position. f_equal; ring. Qed.

Lemma first_vertex_normal :
  CausticVS.main_normal 0 (Vec2 0 0) = normalize (Vec3 (-0.6) 1 (-0.2)).
Proof.
  unfold CausticVS.main_normal, CausticVS.dhdx, CausticVS.dhdy; cbn [v2x v2y].
  replace (0 + 0) with 0 by ring. replace (0 + 2 * 0 + 0) with 0 by ring.
  replace (0 + 3 * 0) with 0 by ring. rewrite sin_0, cos_0.
  f_equal. f_equal; lra.
Qed.

Lemma first_vertex_position :
  CausticVS.main_position Host.model 0 (Vec2 0 0) = Vec3 0 5.2 0.
Proof.
  unfold CausticVS.main_position, CausticVS.get_height, Host.model, mat4_identity,
    mat_mul_vec, vec4_of, xyz; cbn.
  replace (0 + 0) with 0 by ring. replace (0 + 2 * 0 + 0) with 0 by ring.
  replace (0 + 3 * 0) with 0 by ring. rewrite sin_0, cos_0.
  f_equal; lra.
Qed.

Lemma first_vertex_wave_normal :
  Spec.wave_normal 0 (Vec2 0 0) = normalize (Vec3 (-0.6) 1 (-0.2)).
Proof.
  unfold Spec.wave_normal, WaterVS.dhdx, WaterVS.dhdy; cbn [v2x v2y].
  replace (0 + 0) with 0 by ring. replace (0 + 2 * 0 + 0) with 0 by ring.
  replace (0 + 3 * 0) with 0 by ring. rewrite sin_0, cos_0.
  f_equal. f_equal; lra.
Qed.

Lemma first_vertex_raw_normal_sqr : dot (Vec3 (-0.6) 1 (-0.2)) (Vec3 (-0.6) 1 (-0.2)) = 1.4.
Proof. unfold dot; cbn. lra. Qed.

(** The cosine between the wave normal at the first vertex and the light. *)
Lemma first_vertex_light_cosine :
  0 < dot (normalize (Vec3 (-0.6) 1 (-0.2))) Host.light_direction <= 1.
Proof.
  split.
  - unfold Host.light_direction. rewrite dot_normalize.
    apply Rmult_lt_0_compat; [unfold dot; cbn; lra|].
    apply Rinv_0_lt_compat. apply Rmult_lt_0_compat.
    + apply length_pos. rewrite first_vertex_raw_normal_sqr. lra.
    + pose proof light_length_gt_1. lra.
  - assert (H : dot (normalize (Vec3 (-0.6) 1 (-0.2))) Host.light_direction
                * dot (normalize (Vec3 (-0.6) 1 (-0.2))) Host.light_direction <= 1).
    { apply dot_unit_sqr_le_1; [|apply light_direction_unit].
      apply normalize_is_unit. rewrite first_vertex_raw_normal_sqr. lra. }
    nra.
Qed.

(** ** How the landing point depends on the index of refraction *)

Lemma snell_denominator (s m : R) :
  0 <= s -> s * s < 1 -> 1 < m ->
  let rc := sqrt (1 - 1.0 * s / m * (1.0 * s / m)) in
  0 < rc /\ (m * rc) * (m * rc) = m * m - s * s.
Proof.
  intros Hs Hs1 Hm rc.
  assert (Him : 0 < / m) by (apply Rinv_0_lt_compat; lra).
  assert (Hmi : m * / m = 1) by (apply Rinv_r; lra).
  assert (Him1 : / m < 1) by nra.
  assert (Hq : 1.0 * s / m * (1.0 * s / m) = (s * s) * (/ m * / m))
    by (replace 1.0 with 1 by lra; field; lra).
  assert (Hi2 : / m * / m < 1) by nra.
  assert (Hi3 : 0 < / m * / m) by nra.
  assert (Harg : 0 < 1 - 1.0 * s / m * (1.0 * s / m)).
  { rewrite Hq. assert (s * s * (/ m * / m) <= s * s * 1) by (apply Rmult_le_compat_l; nra).
    lra. }
  split; [now apply sqrt_lt_R0|].
  assert (Hrc : rc * rc = 1 - 1.0 * s / m * (1.0 * s / m)) by (apply sqrt_sqrt; lra).
  replace (m * rc * (m * rc)) with (m * m * (rc * rc)) by ring.
  rewrite Hrc, Hq. field. lra.
Qed.

Lemma refracted_x (P N D : vec3) (n1 n2 : R) :
  let c := dot (normalize N) D in
  let s := sqrt (1 - c * c) in
  let rc := sqrt (1 - n1 * s / n2 * (n1 * s / n2)) in
  v3x (WaterFS.refracted_position P N D n1 n2)
  = v3x P + (- v3x D * v3y P / v3y D) * n1 * c * (/ n2 * / rc).
Proof.
  intros c s rc. unfold WaterFS.refracted_position. fold c. fold s. fold rc.
  unfold add, sub, rdiv, rscale, Rdiv; cbn. ring.
Qed.

Lemma refracted_x_differs (P N D : vec3) (n2 n2' : R) :
  0 < dot (normalize N) D <= 1 ->
  - v3x D * v3y P / v3y D <> 0 ->
  1 < n2 -> 1 < n2' -> n2 <> n2' ->
  v3x (WaterFS.refracted_position P N D 1.0 n2)
  <> v3x (WaterFS.refracted_position P N D 1.0 n2').
Proof.
  intros [Hc0 Hc1] HA Hn Hn' Hne. rewrite !refracted_x. cbv zeta.
  set (c := dot (normalize N) D) in *.
  set (A := - v3x D * v3y P / v3y D) in *.
  set (s := sqrt (1 - c * c)).
  assert (Hs0 : 0 <= s) by apply sqrt_pos.
  assert (Hss : s * s = 1 - c * c) by (apply sqrt_sqrt; nra).
  assert (Hs1 : s * s < 1) by nra.
  destruct (snell_denominator s n2 Hs0 Hs1 Hn) as [Hr Hq].
  destruct (snell_denominator s n2' Hs0 Hs1 Hn') as [Hr' Hq'].
  set (rc := sqrt (1 - 1.0 * s / n2 * (1.0 * s / n2))) in *.
  set (rc' := sqrt (1 - 1.0 * s / n2' * (1.0 * s / n2'))) in *.
  intros H.
  assert (Hk : / n2 * / rc = / n2' * / rc').
  { apply (Rmult_eq_reg_l (A * 1.0 * c)); [lra|].
    intros Z. apply Rmult_integral in Z. destruct Z as [Z|Z]; [|lra].
    apply Rmult_integral in Z. destruct Z as [Z|Z]; [contradiction|lra]. }
  rewrite <- !Rinv_mult in Hk.
  apply (f_equal Rinv) in Hk. rewrite !Rinv_inv in Hk.
  assert (Hsq : n2 * n2 = n2' * n2') by (rewrite Hk in Hq; lra).
  nra.
Qed.

Lemma schlick_below_1 (c : R) : 0 < c <= 1 -> Spec.schlick 1.0 1.333 c < 1.
Proof.
  intros [H0 H1]. unfold Spec.schlick.
  assert (H4 : (1 - c) ^ 4 <= 1 ^ 4) by (apply pow_incr; lra).
  rewrite pow1 in H4.
  assert (H4' : 0 <= (1 - c) ^ 4) by (apply pow_le; lra).
  assert (H5 : (1 - c) ^ 5 < 1).
  { replace ((1 - c) ^ 5) with ((1 - c) * (1 - c) ^ 4) by ring. nra. }
  pose proof R0_water_bounds. nra.
Qed.

Lemma normalize_zero : normalize (Vec3 0 0 0) = Vec3 0 0 0.
Proof. unfold normalize, rdiv, Rdiv; cbn. f_equal; ring. Qed.

(** C3 on the code. The value a caustic sample writes is
    (light_color, 1 - R) with R the Schlick reflectance at the fragment
    stage's own input [normal], which no output of the vertex stage feeds: it
    is the same at every vertex and time. At the first grid vertex at time 0
    under the light of the host program, an input [normal] of zero writes the
    weight 0, where the wave normal of that vertex has a positive weight. *)
Theorem caustic_value_reads_unlinked_normal :
  (forall (model : mat4) (time : R) (sun_direction sun_light : vec3)
          (in_position : vec2) (unlinked_normal : vec3),
      snd (CausticsProgram.sample model time sun_direction sun_light in_position
             unlinked_normal)
      = Spec.caustic_value 1.0 1.333 sun_light (normalize unlinked_normal) sun_direction)
  /\ snd (CausticsProgram.sample Host.model 0 Host.light_direction Host.sun_color
            (Vec2 0 0) (Vec3 0 0 0))
     = vec4_of Host.sun_color 0
  /\ 0 < v4w (Spec.caustic_value 1.0 1.333 Host.sun_color
                (Spec.wave_normal 0 (Vec2 0 0)) Host.light_direction).
Proof.
  assert (G : forall (model : mat4) (time : R) (sun_direction sun_light : vec3)
          (in_position : vec2) (unlinked_normal : vec3),
      snd (CausticsProgram.sample model time sun_direction sun_light in_position
             unlinked_normal)
      = Spec.caustic_value 1.0 1.333 sun_light (normalize unlinked_normal) sun_direction).
  { intros. unfold CausticsProgram.sample; cbn [snd].
    unfold CausticFS.main, Spec.caustic_value, Spec.transmit.
    rewrite caustic_coef_schlick. unfold vec4_of. f_equal. lra. }
  split; [exact G|]. split.
  - rewrite G, normalize_zero. unfold Spec.caustic_value, Spec.transmit.
    replace (dot (Vec3 0 0 0) Host.light_direction) with 0 by (unfold dot; cbn; ring).
    unfold vec4_of. f_equal. unfold Spec.schlick. ring.
  - unfold Spec.caustic_value, vec4_of, Spec.transmit; cbn [v4w].
    rewrite first_vertex_wave_normal.
    pose proof (schlick_below_1 _ first_vertex_light_cosine). lra.
Qed.

(** C6 on the code. The caustic vertex shader calls the refraction routine
    with n1 = 1.0 and n2 = 1.33, where the water pass and the caustic
    fragment shader have n2 = 1.333; at the first grid vertex at time 0 under
    the light of the host program the position it writes is not the one the
    index 1.333 gives. *)
Theorem caustic_vertex_refracts_with_1_33 :
  (forall (model : mat4) (time : R) (sun_direction : vec3) (in_position : vec2),
      CausticVS.main model time sun_direction in_position
      = let r := CausticVS.get_refract sun_direction 1.0 1.33
                   (CausticVS.main_normal time in_position)
                   (CausticVS.main_position model time in_position) in
        Vec4 (v3x r / 40.0 * 2.0 - 1.0) (v3z r / 8.0 * 2.0 - 1.0) 0.0 1.0)
  /\ (let r := CausticVS.get_refract Host.light_direction 1.0 1.333
                 (CausticVS.main_normal 0 (Vec2 0 0))
                 (CausticVS.main_position Host.model 0 (Vec2 0 0)) in
      CausticVS.main Host.model 0 Host.light_direction (Vec2 0 0)
      <> Vec4 (v3x r / 40.0 * 2.0 - 1.0) (v3z r / 8.0 * 2.0 - 1.0) 0.0 1.0).
Proof.
  split; [reflexivity|].
  cbv zeta. unfold CausticVS.main. cbv zeta. cbn [v2x v2y].
  rewrite !caustic_get_refract_is_refracted_position.
  rewrite first_vertex_normal, first_vertex_position.
  remember (WaterFS.refracted_position (Vec3 0 5.2 0) (normalize (Vec3 (-0.6) 1 (-0.2)))
              Host.light_direction 1.0 1.33) as r1 eqn:E1.
  remember (WaterFS.refracted_position (Vec3 0 5.2 0) (normalize (Vec3 (-0.6) 1 (-0.2)))
              Host.light_direction 1.0 1.333) as r2 eqn:E2.
  intros H. injection H as Hx _.
  assert (Hx' : v3x r1 = v3x r2) by lra. subst r1 r2. clear Hx.
  revert Hx'.
  assert (Hd : 0 < dot (normalize (normalize (Vec3 (-0.6) 1 (-0.2)))) Host.light_direction <= 1).
  { rewrite normalize_idem by (rewrite first_vertex_raw_normal_sqr; lra).
    apply first_vertex_light_cosine. }
  assert (HA : - v3x Host.light_direction * v3y (Vec3 0 5.2 0) / v3y Host.light_direction <> 0).
  { unfold Host.light_direction, normalize, rdiv; cbn.
    pose proof light_length_gt_1 as Hl.
    set (l := length (Vec3 0.9 1 (-0.2))) in *.
    replace (- (0.9 / l) * 5.2 / (1 / l)) with (- (0.9 * 5.2)) by (field; lra). lra. }
  apply (refracted_x_differs (Vec3 0 5.2 0) (normalize (Vec3 (-0.6) 1 (-0.2)))
           Host.light_direction 1.33 1.333 Hd HA); lra.
Qed.

(** ** The partial operations of the refraction routine *)

Lemma sqrt_checked_some (x : R) : 0 <= x -> Checked.sqrt_checked x = Some (sqrt x).
Proof.
  intros H. unfold Checked.sqrt_checked. destruct (Rle_dec 0 x); [reflexivity|contradiction].
Qed.

Lemma div_checked_some (a b : R) : b <> 0 -> Checked.div_checked a b = Some (a / b).
Proof.
  intros H. unfold Checked.div_checked. destruct (Req_dec_T b 0); [contradiction|reflexivity].
Qed.

Lemma div_checked_none (a b : R) : b = 0 -> Checked.div_checked a b = None.
Proof.
  intros H. unfold Checked.div_checked. destruct (Req_dec_T b 0); [reflexivity|contradiction].
Qed.

Lemma rdiv_checked_some (a : vec3) (k : R) :
  k <> 0 -> Checked.rdiv_checked a k = Some (rdiv a k).
Proof.
  intros H. unfold Checked.rdiv_checked. destruct (Req_dec_T k 0); [contradiction|reflexivity].
Qed.

Lemma normalize_checked_unit (a : vec3) :
  dot a a = 1 -> Checked.normalize_checked a = Some (normalize a).
Proof.
  intros H. unfold Checked.normalize_checked.
  rewrite sqrt_checked_some by (rewrite H; lra). cbn [Checked.bind].
  fold (length a). rewrite rdiv_checked_some by (rewrite (length_unit a H); lra).
  reflexivity.
Qed.

(** The quantities of Snell's law for unit vectors, going into a medium of
    index above 1. *)
Lemma snell_bounds (N D : vec3) (n2 : R) :
  dot N N = 1 -> dot D D = 1 -> 1 < n2 ->
  let cosine := dot (normalize N) D in
  let sine := sqrt (1 - cosine * cosine) in
  let refract_sine := 1.0 * sine / n2 in
  let refract_cosine := sqrt (1 - refract_sine * refract_sine) in
  0 <= 1 - cosine * cosine
  /\ 0 <= sine <= 1
  /\ refract_sine <= 1.0 / n2
  /\ 1.0 / n2 < 1
  /\ 0 < 1 - refract_sine * refract_sine
  /\ 0 < refract_cosine.
Proof.
  intros HN HD Hn cosine sine refract_sine refract_cosine.
  assert (Hc : cosine * cosine <= 1).
  { unfold cosine. rewrite (normalize_unit N HN). now apply dot_unit_sqr_le_1. }
  assert (Hs0 : 0 <= sine) by apply sqrt_pos.
  assert (Hss : sine * sine = 1 - cosine * cosine) by (apply sqrt_sqrt; lra).
  assert (Hs1 : sine <= 1) by nra.
  assert (Him : 0 < / n2) by (apply Rinv_0_lt_compat; lra).
  assert (Hmi : n2 * / n2 = 1) by (apply Rinv_r; lra).
  assert (Him1 : / n2 < 1) by nra.
  assert (Hrs : refract_sine = sine * / n2) by (unfold refract_sine; unfold Rdiv; lra).
  assert (Hrs0 : 0 <= refract_sine) by (rewrite Hrs; nra).
  assert (Hrs1 : refract_sine <= / n2) by (rewrite Hrs; nra).
  assert (Harg : 0 < 1 - refract_sine * refract_sine) by nra.
  assert (Hrc : 0 < refract_cosine) by (unfold refract_cosine; now apply sqrt_lt_R0).
  assert (Hq : 1.0 / n2 = / n2) by (unfold Rdiv; lra).
  rewrite Hq. clearbody refract_cosine refract_sine sine cosine.
  repeat split; lra.
Qed.

Lemma checked_get_refract_some (P N D : vec3) (n2 : R) :
  dot N N = 1 -> dot D D = 1 -> 1 < n2 -> v3y D <> 0 ->
  Checked.get_refract D 1.0 n2 N P = Some (CausticVS.get_refract D 1.0 n2 N P).
Proof.
  intros HN HD Hn Hy.
  destruct (snell_bounds N D n2 HN HD Hn) as (H1 & _ & _ & _ & H2 & H3).
  cbv zeta in H1, H2, H3.
  unfold Checked.get_refract, CausticVS.get_refract.
  rewrite (normalize_checked_unit N HN). cbn [Checked.bind].
  rewrite (sqrt_checked_some _ H1). cbn [Checked.bind].
  rewrite div_checked_some by lra. cbn [Checked.bind].
  rewrite sqrt_checked_some by lra. cbn [Checked.bind].
  rewrite !(div_checked_some _ (v3y D)) by assumption. cbn [Checked.bind].
  rewrite rdiv_checked_some by lra. cbn [Checked.bind].
  rewrite rdiv_checked_some by lra. cbn [Checked.bind].
  reflexivity.
Qed.

Lemma checked_get_refract_horizontal (P N D : vec3) (n2 : R) :
  dot N N = 1 -> dot D D = 1 -> 1 < n2 -> v3y D = 0 ->
  Checked.get_refract D 1.0 n2 N P = None.
Proof.
  intros HN HD Hn Hy.
  destruct (snell_bounds N D n2 HN HD Hn) as (H1 & _ & _ & _ & H2 & H3).
  cbv zeta in H1, H2, H3.
  unfold Checked.get_refract.
  rewrite (normalize_checked_unit N HN). cbn [Checked.bind].
  rewrite (sqrt_checked_some _ H1). cbn [Checked.bind].
  rewrite div_checked_some by lra. cbn [Checked.bind].
  rewrite sqrt_checked_some by lra. cbn [Checked.bind].
  rewrite (div_checked_none _ (v3y D) Hy). reflexivity.
Qed.

(** The routine in binary32 at two parallel directions: for the normal the
    vertex shader computes from the slopes (1/4, 1/4), taken as direction
    too, the cosine rounds to 1 + 2^-23. *)
Lemma binary32_parallel_cosine :
  let u := Binary32.vertex_normal (Binary32.of_scaled 1 (-2)) (Binary32.of_scaled 1 (-2)) in
  u = Binary32.Vec3 (SpecFloat.S754_finite true 15817712 (-26))
        (SpecFloat.S754_finite false 15817712 (-24))
        (SpecFloat.S754_finite true 15817712 (-26))
  /\ Binary32.dot u u = SpecFloat.S754_finite false 8388609 (-23)
  /\ Binary32.cosine u u = SpecFloat.S754_finite false 8388609 (-23)
  /\ Binary32.sine_argument u u = SpecFloat.S754_finite true 8388608 (-45)
  /\ Binary32.sine u u = SpecFloat.S754_nan.
Proof. vm_compute. repeat split. Qed.

(** C10, as the code has it. For every unit normal N and unit direction D,
    with n1 = 1.0 and n2 = 1.333 or n2 = 1.33, in exact arithmetic
    1 - cosine^2 >= 0, refract_sine <= n1/n2 < 1, 1 - refract_sine^2 > 0 and
    refract_cosine > 0 (total internal reflection is out of reach going from
    air into water), and every operation of the routine is defined exactly
    when D is not horizontal. The routine as the shader computes it is not
    numerically total: for D.y = 0 it divides by zero, and without the clamp,
    in binary32, for the unit vector u = normalize(-1/4, 1, -1/4) as normal
    and direction (u.y > 0) the cosine rounds to 1 + 2^-23, 1 - cosine^2 is
    -2^-22 and the square root is not a number. *)
Theorem refraction_bounds_exact_not_numeric (P N D : vec3) (n2 : R) :
  dot N N = 1 -> dot D D = 1 -> n2 = 1.333 \/ n2 = 1.33 ->
  let n1 := 1.0 in
  let cosine := dot (normalize N) D in
  let sine := sqrt (1 - cosine * cosine) in
  let refract_sine := n1 * sine / n2 in
  let refract_cosine := sqrt (1 - refract_sine * refract_sine) in
  let u := Binary32.vertex_normal (Binary32.of_scaled 1 (-2)) (Binary32.of_scaled 1 (-2)) in
  0 <= 1 - cosine * cosine
  /\ refract_sine <= n1 / n2
  /\ n1 / n2 < 1
  /\ 0 < 1 - refract_sine * refract_sine
  /\ 0 < refract_cosine
  /\ (v3y D <> 0 ->
      Checked.get_refract D n1 n2 N P = Some (CausticVS.get_refract D n1 n2 N P)
      /\ Checked.get_refract D n1 n2 N P = Some (WaterFS.refracted_position P N D n1 n2))
  /\ (v3y D = 0 -> Checked.get_refract D n1 n2 N P = None)
  /\ Binary32.ltb Binary32.zero (Binary32.y u) = true
  /\ Binary32.cosine u u = SpecFloat.S754_finite false 8388609 (-23)
  /\ Binary32.ltb Binary32.one (Binary32.cosine u u) = true
  /\ Binary32.ltb (Binary32.sine_argument u u) Binary32.zero = true
  /\ Binary32.sine u u = SpecFloat.S754_nan.
Proof.
  intros HN HD Hn2 n1 cosine sine refract_sine refract_cosine u.
  assert (Hn : 1 < n2) by (destruct Hn2; lra).
  destruct (snell_bounds N D n2 HN HD Hn) as (H1 & _ & H2 & H3 & H4 & H5).
  destruct binary32_parallel_cosine as (Hu & _ & Hc & Ha & Hs). fold u in Hu, Hc, Ha, Hs.
  split; [assumption|]. split; [assumption|]. split; [assumption|].
  split; [assumption|]. split; [assumption|]. split.
  { intros Hy. split.
    - now apply checked_get_refract_some.
    - rewrite <- caustic_get_refract_is_refracted_position.
      now apply checked_get_refract_some. }
  split; [intros Hy; now apply checked_get_refract_horizontal|].
  split; [rewrite Hu; reflexivity|].
  split; [exact Hc|].
  split; [rewrite Hc; reflexivity|].
  split; [rewrite Ha; reflexivity|exact Hs].
Qed.

Lemma refraction_bounds_exact_not_numeric_witness :
  Checked.get_refract (Vec3 0 1 0) 1.0 1.333 (Vec3 0 1 0) (Vec3 0 5 0)
  = Some (CausticVS.get_refract (Vec3 0 1 0) 1.0 1.333 (Vec3 0 1 0) (Vec3 0 5 0)).
Proof.
  assert (H1 : dot (Vec3 0 1 0) (Vec3 0 1 0) = 1) by (unfold dot; cbn; ring).
  assert (H2 : 1.333 = 1.333 \/ 1.333 = 1.33) by (left; reflexivity).
  assert (H3 : v3y (Vec3 0 1 0) <> 0) by (cbn; lra).
  exact (proj1 (proj1 (proj2 (proj2 (proj2 (proj2 (proj2
    (refraction_bounds_exact_not_numeric (Vec3 0 5 0) (Vec3 0 1 0) (Vec3 0 1 0) 1.333
       H1 H1 H2)))))) H3)).
Defined.

(** C10, the claim as stated, at a concrete input: for the unit normal
    (0, 1, 0) and the unit horizontal direction (1, 0, 0) the routine divides
    by [direction.y = 0]. *)
Lemma refraction_fails_for_horizontal_direction :
  dot (Vec3 0 1 0) (Vec3 0 1 0) = 1
  /\ dot (Vec3 1 0 0) (Vec3 1 0 0) = 1
  /\ Checked.get_refract (Vec3 1 0 0) 1.0 1.333 (Vec3 0 1 0) (Vec3 0 5 0) = None.
Proof.
  assert (HN : dot (Vec3 0 1 0) (Vec3 0 1 0) = 1) by (unfold dot; cbn; ring).
  assert (HD : dot (Vec3 1 0 0) (Vec3 1 0 0) = 1) by (unfold dot; cbn; ring).
  repeat split; try assumption.
  apply checked_get_refract_horizontal; try assumption; [lra | reflexivity].
Qed.

(** ** The render loop *)

Import Host.

Lemma handle_events_without_quit (events : list sdl_event) (s : loop_state) :
  ~ In SDL_QUIT events ->
  running (fold_left handle_event events s) = running s
  /\ gl (fold_left handle_event events s) = gl s.
Proof.
  revert s. induction events as [|e events IH]; intros s Hq; [now split|].
  cbn [fold_left].
  assert (Hq' : ~ In SDL_QUIT events) by (intros H; apply Hq; now right).
  destruct (IH (handle_event s e) Hq') as [Hr Hg]. rewrite Hr, Hg.
  destruct e as [ | d1 d2 | [|] | k | ]; cbn; try (now split).
  exfalso. apply Hq. now left.
Qed.

Lemma handle_events_with_quit (events : list sdl_event) (s : loop_state) :
  In SDL_QUIT events ->
  running (fold_left handle_event events s) = false
  /\ log (gl (fold_left handle_event events s)) = log (gl s).
Proof.
  assert (K : forall evs t, running t = false ->
                running (fold_left handle_event evs t) = false).
  { induction evs as [|e evs IH]; intros t Ht; [exact Ht|].
    cbn [fold_left]. apply IH.
    destruct e as [ | d1 d2 | [|] | k | ]; cbn; first [assumption | reflexivity]. }
  assert (L : forall evs t, log (gl (fold_left handle_event evs t)) = log (gl t)).
  { induction evs as [|e evs IH]; intros t; [reflexivity|].
    cbn [fold_left]. rewrite IH. destruct e as [ | d1 d2 | [|] | k | ]; reflexivity. }
  intros Hin. split; [|apply L].
  revert s. induction events as [|e events IH]; intros s; [contradiction|].
  cbn [fold_left]. destruct Hin as [->|Hin].
  - apply K. reflexivity.
  - now apply IH.
Qed.

Lemma skipn_length_app {A : Type} (l l' : list A) : skipn (List.length l) (l ++ l') = l'.
Proof. induction l as [|a l IH]; [reflexivity | exact IH]. Qed.

(** The events of one frame, from any state of the OpenGL context. *)
Lemma frame_log (st : gl_state) (w h : Z) :
  log (run st (frame w h))
  = log st
    ++ [ Cleared caustics_fbo (Vec4 0 0 0 0);
         Drawn caustics_program caustics_fbo [] true (depth_test st);
         Cleared window_framebuffer (Vec4 0.8 0.8 1 0);
         Drawn env_program window_framebuffer [Some env_tex] false false;
         Drawn floor_program window_framebuffer [Some tex; Some caustics_tex] false true;
         Drawn water_program window_framebuffer
           [Some env_tex; Some tex; Some caustics_tex] false true;
         Presented ].
Proof.
  unfold run, frame, caustics_pass, environment_pass, floor_pass, water_pass.
  cbn [app fold_left step emit set_capability current_program draw_framebuffer clear_color
       blend depth_test cull_face active_texture bound sampler_unit log program_eqb
       sampled_textures samplers map fst snd sampler_eqb target_eqb Nat.eqb andb].
  rewrite <- !app_assoc. reflexivity.
Qed.

(** C9, as the loop has it. Every iteration of the render loop that polls
    no quit event clears the offscreen caustic buffer to zero and executes
    exactly one caustics pass into it, then the backdrop pass, the floor
    pass, the water pass and the swap, in this order whatever the state
    before; the caustic buffer is written by the clear and the draw of the
    caustics pass only, and read by the floor pass and the water pass of the
    same frame only. An iteration that polls a quit event leaves the loop
    before any pass. *)
Theorem iteration_passes_in_order (events : list sdl_event) (dt : R) (s : loop_state) :
  running s = true ->
  (~ In SDL_QUIT events ->
   frame_events events dt s
   = [ Cleared caustics_fbo (Vec4 0 0 0 0);
       Drawn caustics_program caustics_fbo [] true (depth_test (gl s));
       Cleared window_framebuffer (Vec4 0.8 0.8 1 0);
       Drawn env_program window_framebuffer [Some env_tex] false false;
       Drawn floor_program window_framebuffer [Some tex; Some caustics_tex] false true;
       Drawn water_program window_framebuffer
         [Some env_tex; Some tex; Some caustics_tex] false true;
       Presented ]
   /\ map writes_caustic_buffer (frame_events events dt s)
      = [true; true; false; false; false; false; false]
   /\ map reads_caustic_buffer (frame_events events dt s)
      = [false; false; false; false; true; true; false]
   /\ running (iteration events dt s) = true)
  /\ (In SDL_QUIT events ->
      frame_events events dt s = [] /\ running (iteration events dt s) = false).
Proof.
  intros Hrun. split.
  - intros Hq. destruct (handle_events_without_quit events s Hq) as [Hr Hg].
    assert (E : frame_events events dt s
                = [ Cleared caustics_fbo (Vec4 0 0 0 0);
                    Drawn caustics_program caustics_fbo [] true (depth_test (gl s));
                    Cleared window_framebuffer (Vec4 0.8 0.8 1 0);
                    Drawn env_program window_framebuffer [Some env_tex] false false;
                    Drawn floor_program window_framebuffer [Some tex; Some caustics_tex]
                      false true;
                    Drawn water_program window_framebuffer
                      [Some env_tex; Some tex; Some caustics_tex] false true;
                    Presented ]).
    { unfold frame_events, iteration. rewrite Hr, Hrun. cbn [negb gl].
      rewrite frame_log, Hg. apply skipn_length_app. }
    split; [exact E|]. rewrite E.
    split; [reflexivity|]. split; [reflexivity|].
    unfold iteration. rewrite Hr, Hrun. reflexivity.
  - intros Hq. destruct (handle_events_with_quit events s Hq) as [Hr Hl].
    unfold frame_events, iteration. rewrite Hr. cbn [negb]. rewrite Hl, Hr.
    split; [|reflexivity].
    rewrite <- (app_nil_r (log (gl s))) at 2. apply skipn_length_app.
Qed.

Lemma iteration_passes_in_order_witness :
  map writes_caustic_buffer
    (frame_events [SDL_KEYDOWN SDLK_p; SDL_WINDOWEVENT_RESIZED 1024 768] 0.016
       (initial_state 800 600))
  = [true; true; false; false; false; false; false].
Proof.
  apply (iteration_passes_in_order
           [SDL_KEYDOWN SDLK_p; SDL_WINDOWEVENT_RESIZED 1024 768] 0.016
           (initial_state 800 600)).
  - reflexivity.
  - intros [H|[H|[]]]; discriminate.
Defined.

(** C9, the claim as stated, at a concrete input: the iteration that polls
    a quit event, from the state the loop starts in, executes no pass and no
    swap. *)
Lemma quit_iteration_draws_nothing :
  running (initial_state 800 600) = true
  /\ frame_events [SDL_QUIT] 0.016 (initial_state 800 600) = [].
Proof.
  split; [reflexivity|].
  unfold frame_events, iteration. reflexivity.
Qed.

(** * Further properties of the shaders and of the host program *)

(** ** The wave field *)

Lemma water_slope_bounds (t : R) (p : vec2) :
  -0.6 <= WaterVS.dhdx t p <= 0.6 /\ -0.4 <= WaterVS.dhdy t p <= 0.4.
Proof.
  unfold WaterVS.dhdx, WaterVS.dhdy.
  pose proof (COS_bound (v2x p + t)) as C1.
  pose proof (COS_bound (v2x p + 2 * v2y p + t)) as C2.
  pose proof (SIN_bound (v2y p + 3 * t)) as S1.
  lra.
Qed.

Lemma caustic_slopes_are_water_slopes (t : R) (p : vec2) :
  CausticVS.dhdx t p = WaterVS.dhdx t p /\ CausticVS.dhdy t p = WaterVS.dhdy t p
  /\ CausticVS.get_height t p = WaterVS.get_height t p.
Proof. repeat split. Qed.

(** X1. The water surface stays within 0.8 of its mean level 5, so it is
    always above the floor plane, and its slopes are bounded: |dh/dx| <= 0.6
    and |dh/dz| <= 0.4, in the water and in the caustic vertex shader. *)
Theorem wave_height_and_slope_bounds (t : R) (p : vec2) :
  4.2 <= WaterVS.get_height t p <= 5.8
  /\ -0.6 <= WaterVS.dhdx t p <= 0.6
  /\ -0.4 <= WaterVS.dhdy t p <= 0.4
  /\ 4.2 <= CausticVS.get_height t p <= 5.8
  /\ -0.6 <= CausticVS.dhdx t p <= 0.6
  /\ -0.4 <= CausticVS.dhdy t p <= 0.4.
Proof.
  destruct (caustic_slopes_are_water_slopes t p) as (-> & -> & ->).
  destruct (water_slope_bounds t p) as [Hx Hz].
  assert (Hh : 4.2 <= WaterVS.get_height t p <= 5.8).
  { unfold WaterVS.get_height.
    pose proof (SIN_bound (v2x p + t)) as S1.
    pose proof (COS_bound (v2y p + 3 * t)) as C1.
    pose proof (SIN_bound (v2x p + 2 * v2y p + t)) as S2.
    cbv zeta. lra. }
  repeat split; lra.
Qed.

(** ** The normal of the vertex shaders *)

Lemma raw_normal_sqr (a b : R) :
  dot (Vec3 (- a) 1 (- b)) (Vec3 (- a) 1 (- b)) = 1 + a * a + b * b.
Proof. unfold dot; cbn. ring. Qed.

Lemma main_normal_raw (t : R) (p : vec2) :
  CausticVS.main_normal t p
  = normalize (Vec3 (- WaterVS.dhdx t p) 1 (- WaterVS.dhdy t p)).
Proof.
  unfold CausticVS.main_normal. replace 1.0 with 1 by lra. reflexivity.
Qed.

Lemma water_normal_raw (model view projection : mat4) (t : R) (p : vec2) :
  WaterVS.normal (WaterVS.main model view projection t p)
  = normalize (Vec3 (- WaterVS.dhdx t p) 1 (- WaterVS.dhdy t p)).
Proof. reflexivity. Qed.

Lemma raw_normal_unit_up (a b : R) :
  let n := normalize (Vec3 (- a) 1 (- b)) in
  dot n n = 1 /\ 0 < v3y n <= 1.
Proof.
  intros n. pose proof (raw_normal_sqr a b) as Hs.
  assert (Hpos : 0 < dot (Vec3 (- a) 1 (- b)) (Vec3 (- a) 1 (- b))) by (rewrite Hs; nra).
  split; [now apply normalize_is_unit|].
  pose proof (length_pos _ Hpos) as Hl. pose proof (length_sqr (Vec3 (- a) 1 (- b))) as Hq.
  rewrite Hs in Hq. unfold n, normalize, rdiv; cbn [v3y].
  set (l := length (Vec3 (- a) 1 (- b))) in *.
  assert (Hl1 : 1 <= l) by nra.
  assert (Hi : 0 < / l) by (now apply Rinv_0_lt_compat).
  assert (Hli : l * / l = 1) by (apply Rinv_r; lra).
  unfold Rdiv. split; nra.
Qed.

(** X2. The normal a vertex shader computes, normalize(-dh/dx, 1, -dh/dz),
    is a unit vector that points upward (0 < y <= 1), at every vertex and
    time, in the water vertex shader and in the caustic vertex shader. *)
Theorem vertex_normal_unit_and_upward (model view projection : mat4) (t : R) (p : vec2) :
  let nw := WaterVS.normal (WaterVS.main model view projection t p) in
  let nc := CausticVS.main_normal t p in
  dot nw nw = 1 /\ 0 < v3y nw <= 1 /\ dot nc nc = 1 /\ 0 < v3y nc <= 1.
Proof.
  cbv zeta. rewrite water_normal_raw, main_normal_raw.
  destruct (raw_normal_unit_up (WaterVS.dhdx t p) (WaterVS.dhdy t p)) as [H1 H2].
  cbv zeta in H1, H2. repeat split; solve [apply H1 | apply H2].
Qed.

(** X3. For the same vertex, time and model matrix the caustic vertex
    shader works on the surface point and the normal the water vertex shader
    outputs; under the identity model of the host program that point is
    (x, height, z). *)
Theorem vertex_stages_agree (model view projection : mat4) (t : R) (p : vec2) :
  CausticVS.main_position model t p
  = WaterVS.position (WaterVS.main model view projection t p)
  /\ CausticVS.main_normal t p = WaterVS.normal (WaterVS.main model view projection t p)
  /\ CausticVS.main_position Host.model t p
     = Vec3 (v2x p) (WaterVS.get_height t p) (v2y p).
Proof.
  split; [|split].
  - unfold CausticVS.main_position, WaterVS.main; cbn [WaterVS.position].
    replace 1.0 with 1 by lra. reflexivity.
  - now rewrite main_normal_raw, water_normal_raw.
  - unfold CausticVS.main_position, Host.model, mat4_identity, mat_mul_vec, vec4_of, xyz; cbn.
    f_equal; try lra.
    destruct (caustic_slopes_are_water_slopes t p) as (_ & _ & E). rewrite <- E. lra.
Qed.

(** ** Mirror reflection *)

Lemma floor_reflect_is_water_reflect (normal direction : vec3) :
  FloorFS.reflect normal direction = WaterFS.reflect normal direction.
Proof. reflexivity. Qed.

(** X4. [reflect] about a unit normal is a mirror: it keeps the length of
    the direction and its cosine with the normal, and reflecting twice gives
    the direction back; the floor and the water fragment shader have the
    same [reflect]. *)
Theorem reflect_is_mirror (normal direction : vec3) :
  dot normal normal = 1 ->
  let r := WaterFS.reflect normal direction in
  dot r r = dot direction direction
  /\ dot normal r = dot normal direction
  /\ WaterFS.reflect normal r = direction
  /\ FloorFS.reflect normal direction = r.
Proof.
  intros Hn r. subst r. unfold WaterFS.reflect.
  destruct normal as [nx ny nz], direction as [dx dy dz].
  unfold dot in *; cbn in *.
  set (c := nx * dx + ny * dy + nz * dz).
  repeat split.
  - replace ((2 * nx * c - dx) * (2 * nx * c - dx) + (2 * ny * c - dy) * (2 * ny * c - dy)
             + (2 * nz * c - dz) * (2 * nz * c - dz))
      with (4 * c * c * (nx * nx + ny * ny + nz * nz) - 4 * c * c
            + (dx * dx + dy * dy + dz * dz)) by (unfold c; ring).
    rewrite Hn. ring.
  - replace (nx * (2 * nx * c - dx) + ny * (2 * ny * c - dy) + nz * (2 * nz * c - dz))
      with (2 * c * (nx * nx + ny * ny + nz * nz) - c) by (unfold c; ring).
    rewrite Hn. ring.
  - assert (Hc : nx * (2 * nx * c - dx) + ny * (2 * ny * c - dy) + nz * (2 * nz * c - dz) = c).
    { replace (nx * (2 * nx * c - dx) + ny * (2 * ny * c - dy) + nz * (2 * nz * c - dz))
        with (2 * c * (nx * nx + ny * ny + nz * nz) - c) by (unfold c; ring).
      rewrite Hn. ring. }
    unfold sub, rscale, scale; cbn. rewrite Hc. f_equal; ring.
Qed.

Lemma reflect_is_mirror_witness :
  WaterFS.reflect (Vec3 0 1 0) (WaterFS.reflect (Vec3 0 1 0) (Vec3 0.6 0.8 0))
  = Vec3 0.6 0.8 0.
Proof.
  apply (reflect_is_mirror (Vec3 0 1 0) (Vec3 0.6 0.8 0)).
  unfold dot; cbn; ring.
Defined.

(** ** The floor, drawn by the floor pass and seen through the water *)

(** X5. At a floor point with the upward normal (0, 1, 0) and the texture
    coordinate (x/4, z/4) the host gives the floor quad, the colour of the
    floor pass is the colour [get_floor] of the water pass returns for that
    point plus the specular highlight albedo * specular * sun_light: both
    read the floor texture and the caustic buffer at the same coordinates. *)
Theorem floor_pass_is_get_floor_plus_specular
  (camera_position ambient_light sun_light sun_direction : vec3)
  (glossiness roughness : R) (tex caustics_tex : vec2 -> vec4) (position : vec3) :
  let normal := Vec3 0 1 0 in
  let texcoord := Vec2 (v3x position / 4) (v3z position / 4) in
  let caustics_data := caustics_tex (Vec2 (v3x position / 40) (v3z position / 8)) in
  let albedo := add (xyz (tex texcoord)) (scale (v4w caustics_data) (xyz caustics_data)) in
  let highlight :=
    FloorFS.specular camera_position glossiness roughness position normal sun_direction in
  FloorFS.main camera_position ambient_light sun_light sun_direction glossiness roughness
    tex caustics_tex position normal texcoord
  = vec4_of
      (add (WaterFS.get_floor ambient_light sun_light sun_direction tex caustics_tex position)
           (mul (rscale albedo highlight) sun_light))
      1.
Proof.
  cbv zeta. unfold FloorFS.main, WaterFS.get_floor, FloorFS.diffuse, WaterFS.diffuse.
  cbv zeta. unfold vec4_of, add, mul, rscale, scale, xyz; cbn [v3x v3y v3z v4x v4y v4z v4w].
  f_equal; try ring. lra.
Qed.

(** X6. The caustic buffer only adds light to the floor seen through the
    water: [get_floor] is its value over an all-zero caustic buffer plus
    w * rgb * (ambient_light + diffuse * sun_light), where (rgb, w) is the
    caustic texel at (x/40, z/8). *)
Theorem get_floor_adds_caustics
  (ambient_light sun_light sun_direction : vec3) (floor_tex caustics_tex : vec2 -> vec4)
  (pos : vec3) :
  let caustics_data := caustics_tex (Vec2 (v3x pos / 40) (v3z pos / 8)) in
  let extra := scale (v4w caustics_data) (xyz caustics_data) in
  WaterFS.get_floor ambient_light sun_light sun_direction floor_tex caustics_tex pos
  = add (WaterFS.get_floor ambient_light sun_light sun_direction floor_tex
           Scene.no_caustics pos)
        (mul extra (add ambient_light (scale (WaterFS.diffuse sun_direction) sun_light))).
Proof.
  cbv zeta. unfold WaterFS.get_floor, Scene.no_caustics. cbv zeta.
  unfold add, mul, rscale, scale, xyz; cbn [v3x v3y v3z v4x v4y v4z v4w].
  f_equal; ring.
Qed.

(** ** Where the refraction routine lands *)

Lemma refracted_position_y (P N D : vec3) (n1 n2 : R) :
  v3y (WaterFS.refracted_position P N D n1 n2) = 0.
Proof.
  unfold WaterFS.refracted_position, add, sub, rdiv, rscale, Rdiv; cbn. ring.
Qed.

Lemma checked_get_refract_sound (P N D : vec3) (n1 n2 : R) (landing : vec3) :
  Checked.get_refract D n1 n2 N P = Some landing ->
  landing = CausticVS.get_refract D n1 n2 N P.
Proof.
  unfold Checked.get_refract, Checked.normalize_checked, Checked.sqrt_checked,
    Checked.div_checked, Checked.rdiv_checked, CausticVS.get_refract.
  intros H.
  repeat match type of H with
         | context [Rle_dec ?a ?b] => destruct (Rle_dec a b); cbn [Checked.bind] in H
         | context [Req_dec_T ?a ?b] => destruct (Req_dec_T a b); cbn [Checked.bind] in H
         end; try discriminate.
  injection H as <-. reflexivity.
Qed.

(** X7. Whenever every operation of the refraction routine is defined (no
    root of a negative number, no division by zero), its landing point lies
    in the floor plane y = 0, and for a surface point above the floor the ray
    of the backdrop fallback, normalize(landing - P), points downward. *)
Theorem refract_lands_on_floor_plane (P N D : vec3) (n1 n2 : R) (landing : vec3) :
  0 < v3y P ->
  Checked.get_refract D n1 n2 N P = Some landing ->
  landing = WaterFS.refracted_position P N D n1 n2
  /\ landing = CausticVS.get_refract D n1 n2 N P
  /\ v3y landing = 0
  /\ v3y (normalize (sub landing P)) < 0.
Proof.
  intros HP Hdef. apply checked_get_refract_sound in Hdef.
  assert (Hw : landing = WaterFS.refracted_position P N D n1 n2)
    by (now rewrite <- caustic_get_refract_is_refracted_position).
  assert (Hy : v3y landing = 0) by (rewrite Hw; apply refracted_position_y).
  split; [exact Hw|]. split; [exact Hdef|]. split; [exact Hy|].
  assert (Hd : 0 < dot (sub landing P) (sub landing P)).
  { unfold dot, sub; cbn [v3x v3y v3z]. rewrite Hy.
    pose proof (Rle_0_sqr (v3x landing - v3x P)) as S1.
    pose proof (Rle_0_sqr (v3z landing - v3z P)) as S2.
    unfold Rsqr in S1, S2. nra. }
  pose proof (length_pos _ Hd) as Hl.
  unfold normalize, rdiv; cbn [v3y]. unfold sub at 1; cbn [v3y]. rewrite Hy.
  set (l := length (sub landing P)) in *.
  assert (Hi : 0 < / l) by (now apply Rinv_0_lt_compat).
  unfold Rdiv. nra.
Qed.

Lemma refract_lands_on_floor_plane_witness :
  v3y (CausticVS.get_refract (Vec3 0 1 0) 1.0 1.333 (Vec3 0 1 0) (Vec3 20 5 2)) = 0.
Proof.
  assert (H0 : 0 < v3y (Vec3 20 5 2)) by (cbn; lra).
  assert (H1 : dot (Vec3 0 1 0) (Vec3 0 1 0) = 1) by (unfold dot; cbn; ring).
  assert (H2 : 1 < 1.333) by lra.
  assert (H3 : v3y (Vec3 0 1 0) <> 0) by (cbn; lra).
  exact (proj1 (proj2 (proj2
    (refract_lands_on_floor_plane (Vec3 20 5 2) (Vec3 0 1 0) (Vec3 0 1 0) 1.0 1.333 _ H0
       (checked_get_refract_some (Vec3 20 5 2) (Vec3 0 1 0) (Vec3 0 1 0) 1.333 H1 H1 H2 H3))))).
Defined.




(** ** The light of the host program over the wave field *)

Lemma wave_normal_light_cosine (t : R) (p : vec2) :
  0 < dot (normalize (CausticVS.main_normal t p)) Host.light_direction <= 1.
Proof.
  rewrite main_normal_raw.
  destruct (water_slope_bounds t p) as [Hx Hz].
  set (a := WaterVS.dhdx t p) in *. set (b := WaterVS.dhdy t p) in *.
  assert (Hpos : 0 < dot (Vec3 (- a) 1 (- b)) (Vec3 (- a) 1 (- b)))
    by (rewrite raw_normal_sqr; nra).
  rewrite (normalize_idem _ Hpos).
  split.
  - unfold Host.light_direction. rewrite dot_normalize.
    apply Rmult_lt_0_compat; [unfold dot; cbn; lra|].
    apply Rinv_0_lt_compat. apply Rmult_lt_0_compat.
    + now apply length_pos.
    + pose proof light_length_gt_1. lra.
  - assert (H : dot (normalize (Vec3 (- a) 1 (- b))) Host.light_direction
                * dot (normalize (Vec3 (- a) 1 (- b))) Host.light_direction <= 1).
    { apply dot_unit_sqr_le_1; [|apply light_direction_unit].
      now apply normalize_is_unit. }
    nra.
Qed.

Lemma schlick_at_least_R0 (c : R) : c <= 1 -> Spec.R0 1.0 1.333 <= Spec.schlick 1.0 1.333 c.
Proof.
  intros Hc. unfold Spec.schlick.
  assert (Hp : 0 <= (1 - c) ^ 5) by (apply pow_le; lra).
  pose proof R0_water_bounds. nra.
Qed.

(** X9. Under the light of the host program, normalize(0.9, 1, -0.2), every
    normal the water vertex shader outputs faces the light: at every vertex
    and time 0 < cosine <= 1, so the reflect weight [coef] the water fragment
    shader computes from that normal lies in [R0, 1) and its transmit weight
    1 - coef in (0, 1 - R0]. *)
Theorem wave_normals_face_the_light (model view projection : mat4) (t : R) (p : vec2) :
  let N := WaterVS.normal (WaterVS.main model view projection t p) in
  let cosine := dot (normalize N) Host.light_direction in
  0 < cosine <= 1
  /\ Spec.R0 1.0 1.333 <= WaterFS.coef 1.0 1.333 cosine < 1
  /\ 0 < 1 - WaterFS.coef 1.0 1.333 cosine <= 1 - Spec.R0 1.0 1.333.
Proof.
  intros N cosine. pose proof (wave_normal_light_cosine t p) as Hc.
  rewrite main_normal_raw, <- (water_normal_raw model view projection) in Hc.
  fold N in Hc. fold cosine in Hc.
  pose proof (schlick_below_1 cosine Hc) as H1.
  pose proof (schlick_at_least_R0 cosine (proj2 Hc)) as H0.
  rewrite water_coef_schlick. repeat split; lra.
Qed.

(** X10. In the caustics pass of the host program (identity model, light
    normalize(0.9, 1, -0.2), indices 1.0 and 1.33) the refraction routine
    never takes the root of a negative number and never divides by zero, at
    any vertex and time. *)
Theorem caustics_pass_refraction_defined (t : R) (p : vec2) :
  Checked.get_refract Host.light_direction 1.0 1.33
    (CausticVS.main_normal t p) (CausticVS.main_position Host.model t p)
  = Some (CausticVS.get_refract Host.light_direction 1.0 1.33
            (CausticVS.main_normal t p) (CausticVS.main_position Host.model t p)).
Proof.
  apply checked_get_refract_some.
  - rewrite main_normal_raw.
    apply (raw_normal_unit_up (WaterVS.dhdx t p) (WaterVS.dhdy t p)).
  - apply light_direction_unit.
  - lra.
  - pose proof light_direction_y. lra.
Qed.

(** ** Where a caustic sample is written and where the floor reads it *)

(** X11. The caustic vertex shader writes a sample landing at (x, 0, z) at
    the clip position (2 (x/40) - 1, 2 (z/8) - 1, 0, 1): its texture
    coordinate (clip + 1) / 2 is (x/40, z/8), the coordinate at which
    [get_floor] and the floor pass read the caustic buffer for that floor
    point, and the sample falls strictly inside the buffer exactly when the
    landing point passes the floor test of the water pass for a floor of
    40 by 8. *)
Theorem caustic_write_matches_floor_read
  (model : mat4) (time : R) (sun_direction : vec3) (in_position : vec2) :
  let landing := CausticVS.get_refract sun_direction 1.0 1.33
                   (CausticVS.main_normal time in_position)
                   (CausticVS.main_position model time in_position) in
  let gl_Position := CausticVS.main model time sun_direction in_position in
  Vec2 ((v4x gl_Position + 1) / 2) ((v4y gl_Position + 1) / 2)
  = Vec2 (v3x landing / 40) (v3z landing / 8)
  /\ v4z gl_Position = 0 /\ v4w gl_Position = 1
  /\ ((-1 < v4x gl_Position < 1 /\ -1 < v4y gl_Position < 1)
      <-> WaterFS.on_floor Host.floor_width Host.floor_height landing = true).
Proof.
  intros landing gl_Position.
  assert (Ex : v4x gl_Position = v3x landing / 40 * 2 - 1).
  { unfold gl_Position, CausticVS.main. cbv zeta. cbn [v4x v2x v2y]. fold landing. lra. }
  assert (Ey : v4y gl_Position = v3z landing / 8 * 2 - 1).
  { unfold gl_Position, CausticVS.main. cbv zeta. cbn [v4y v2x v2y]. fold landing. lra. }
  split; [f_equal; lra|].
  split; [unfold gl_Position, CausticVS.main; cbn; lra|].
  split; [unfold gl_Position, CausticVS.main; cbn; lra|].
  rewrite on_floor_spec. unfold Host.floor_width, Host.floor_height.
  rewrite Ex, Ey. split; intros [[? ?] [? ?]]; repeat split; lra.
Qed.

(** ** The water mesh *)

Lemma flat_map_length_const {A B : Type} (f : A -> list B) (k : nat) (l : list A) :
  (forall a, List.length (f a) = k) -> List.length (flat_map f l) = (k * List.length l)%nat.
Proof.
  intros Hf. induction l as [|a l IH]; cbn [flat_map List.length].
  - now rewrite Nat.mul_0_r.
  - rewrite length_app, Hf, IH. now rewrite Nat.mul_succ_r, Nat.add_comm.
Qed.

Lemma grid_coordinate_bounds (extent : R) (cnt i : Z) :
  0 <= extent -> (0 <= i <= cnt)%Z -> (0 < cnt)%Z ->
  0 <= extent / IZR cnt * IZR i <= extent.
Proof.
  intros He [Hi0 Hi1] Hc.
  assert (Hc' : 0 < IZR cnt) by (now apply IZR_lt).
  assert (Hi0' : 0 <= IZR i) by (now apply IZR_le).
  assert (Hi1' : IZR i <= IZR cnt) by (now apply IZR_le).
  assert (Hinv : 0 < / IZR cnt) by (now apply Rinv_0_lt_compat).
  assert (Hone : IZR cnt * / IZR cnt = 1) by (apply Rinv_r; lra).
  unfold Rdiv. split.
  - apply Rmult_le_pos; [apply Rmult_le_pos; lra | assumption].
  - assert (Hq : / IZR cnt * IZR i <= 1) by nra.
    assert (Hq0 : 0 <= / IZR cnt * IZR i) by nra.
    rewrite Rmult_assoc. nra.
Qed.

Lemma water_position_in_floor (i j : Z) (fw fh : R) (wc hc : Z) :
  0 <= fw -> 0 <= fh -> (0 <= i <= wc)%Z -> (0 <= j <= hc)%Z -> (0 < wc)%Z -> (0 < hc)%Z ->
  let q := Host.get_water_position i j fw fh wc hc in
  0 <= v2x q <= fw /\ 0 <= v2y q <= fh.
Proof.
  intros Hw Hh Hi Hj Hwc Hhc q. unfold q, Host.get_water_position; cbn [v2x v2y].
  split; now apply grid_coordinate_bounds.
Qed.

(** X12. The water mesh the host builds for a floor of floor_width by
    floor_height with width_water_cnt by height_water_cnt cells has six
    vertices per cell, every vertex lies inside the floor rectangle
    [0, floor_width] x [0, floor_height], and the mesh reaches the corners
    (0, 0) and (floor_width, floor_height). *)
Theorem water_mesh_covers_floor (fw fh : R) (wc hc : nat) :
  0 <= fw -> 0 <= fh -> (0 < wc)%nat -> (0 < hc)%nat ->
  List.length (Mesh.water_points fw fh wc hc) = (6 * hc * wc)%nat
  /\ Forall (fun q => 0 <= v2x q <= fw /\ 0 <= v2y q <= fh) (Mesh.water_points fw fh wc hc)
  /\ In (Vec2 0 0) (Mesh.water_points fw fh wc hc)
  /\ In (Vec2 fw fh) (Mesh.water_points fw fh wc hc).
Proof.
  intros Hw Hh Hwc Hhc. unfold Mesh.water_points.
  assert (Zwc : (0 < Z.of_nat wc)%Z) by lia.
  assert (Zhc : (0 < Z.of_nat hc)%Z) by lia.
  split; [|split; [|split]].
  - rewrite (flat_map_length_const _ (6 * hc)), length_seq; [reflexivity|].
    intros i. rewrite (flat_map_length_const _ 6), length_seq; reflexivity.
  - apply Forall_flat_map, Forall_forall. intros i Hi. apply in_seq in Hi.
    apply Forall_flat_map, Forall_forall. intros j Hj. apply in_seq in Hj.
    unfold Mesh.cell_points.
    repeat (apply Forall_cons; [apply water_position_in_floor; try assumption; lia|]).
    apply Forall_nil.
  - apply in_flat_map. exists 0%nat. split; [apply in_seq; lia|].
    apply in_flat_map. exists 0%nat. split; [apply in_seq; lia|].
    left. unfold Host.get_water_position. cbn [Z.of_nat]. f_equal; ring.
  - apply in_flat_map. exists (wc - 1)%nat. split; [apply in_seq; lia|].
    apply in_flat_map. exists (hc - 1)%nat. split; [apply in_seq; lia|].
    do 5 right. left. unfold Host.get_water_position.
    replace (Z.of_nat (wc - 1) + 1)%Z with (Z.of_nat wc) by lia.
    replace (Z.of_nat (hc - 1) + 1)%Z with (Z.of_nat hc) by lia.
    assert (IZR (Z.of_nat wc) <> 0) by (apply not_0_IZR; lia).
    assert (IZR (Z.of_nat hc) <> 0) by (apply not_0_IZR; lia).
    f_equal; field; assumption.
Qed.

Lemma water_mesh_covers_floor_witness :
  List.length (Mesh.water_points 40 8 2 1) = 12%nat.
Proof.
  apply (water_mesh_covers_floor 40 8 2 1); [lra | lra | lia | lia].
Defined.

(** ** The render loop over several iterations *)

Lemma iteration_without_quit (events : list sdl_event) (dt : R) (s : loop_state) :
  running s = true -> ~ In SDL_QUIT events ->
  running (iteration events dt s) = true
  /\ gl (iteration events dt s) = run (gl s) (frame (width (fold_left handle_event events s))
                                              (height (fold_left handle_event events s)))
  /\ log (gl (iteration events dt s)) = log (gl s) ++ Input.frame_log_of (depth_test (gl s)).
Proof.
  intros Hrun Hq. destruct (handle_events_without_quit events s Hq) as [Hr Hg].
  unfold iteration. rewrite Hr, Hrun. cbn [negb running gl].
  rewrite Hg. repeat split. apply frame_log.
Qed.

Lemma iteration_with_quit (events : list sdl_event) (dt : R) (s : loop_state) :
  In SDL_QUIT events ->
  running (iteration events dt s) = false
  /\ log (gl (iteration events dt s)) = log (gl s).
Proof.
  intros Hq. destruct (handle_events_with_quit events s Hq) as [Hr Hl].
  unfold iteration. rewrite Hr. cbn [negb]. now split.
Qed.

Lemma render_loop_stopped (inputs : list (list sdl_event * R)) (s : loop_state) :
  running s = false -> render_loop inputs s = s.
Proof. intros H. destruct inputs as [|[e d] r]; cbn; [|rewrite H]; reflexivity. Qed.

Lemma render_loop_app (a b : list (list sdl_event * R)) (s : loop_state) :
  render_loop (a ++ b) s = render_loop b (render_loop a s).
Proof.
  revert s. induction a as [|[e d] a IH]; intros s; [reflexivity|].
  cbn [app render_loop]. destruct (running s) eqn:E; [apply IH|].
  symmetry. now apply render_loop_stopped.
Qed.

Lemma render_loop_without_quit (frames : list (list sdl_event * R)) (s : loop_state) :
  running s = true -> Forall (fun f => ~ In SDL_QUIT (fst f)) frames ->
  running (render_loop frames s) = true
  /\ List.length (log (gl (render_loop frames s)))
     = (List.length (log (gl s)) + 7 * List.length frames)%nat.
Proof.
  revert s. induction frames as [|[e d] frames IH]; intros s Hrun Hall.
  - cbn. split; [assumption|lia].
  - inversion Hall as [|x l Hq Hrest]; subst. cbn [fst] in Hq.
    cbn [render_loop]. rewrite Hrun.
    destruct (iteration_without_quit e d s Hrun Hq) as (Hr & _ & Hl).
    destruct (IH (iteration e d s) Hr Hrest) as [Hr' Hlen].
    split; [assumption|]. rewrite Hlen, Hl, length_app. cbn [List.length Input.frame_log_of]. lia.
Qed.

(** X13. The render loop draws one frame of seven buffer events (two
    clears, four draws, one swap) per iteration until an iteration polls a
    quit event; that iteration and whatever input follows it draw nothing,
    and the loop is left with [running] false. *)
Theorem render_loop_stops_at_quit
  (frames rest : list (list sdl_event * R)) (quit_events : list sdl_event) (dt : R)
  (s : loop_state) :
  running s = true ->
  Forall (fun f => ~ In SDL_QUIT (fst f)) frames ->
  In SDL_QUIT quit_events ->
  List.length (log (gl (render_loop frames s)))
  = (List.length (log (gl s)) + 7 * List.length frames)%nat
  /\ running (render_loop frames s) = true
  /\ log (gl (render_loop (frames ++ (quit_events, dt) :: rest) s))
     = log (gl (render_loop frames s))
  /\ running (render_loop (frames ++ (quit_events, dt) :: rest) s) = false.
Proof.
  intros Hrun Hall Hq.
  destruct (render_loop_without_quit frames s Hrun Hall) as [Hr Hlen].
  destruct (iteration_with_quit quit_events dt (render_loop frames s) Hq) as [Hr' Hl'].
  rewrite render_loop_app. cbn [render_loop]. rewrite Hr.
  rewrite (render_loop_stopped rest _ Hr').
  repeat split; assumption.
Qed.

Lemma render_loop_stops_at_quit_witness :
  running (render_loop
    ([([SDL_KEYDOWN SDLK_p], 0.016); ([], 0.016)] ++ ([SDL_QUIT], 0.016) :: [([], 0.016)])
    (initial_state 800 600))
  = false.
Proof.
  assert (H1 : running (initial_state 800 600) = true) by reflexivity.
  assert (H2 : Forall (fun f : list sdl_event * R => ~ In SDL_QUIT (fst f))
                 [([SDL_KEYDOWN SDLK_p], 0.016); ([], 0.016)]).
  { apply Forall_cons; [intros [H|[]]; discriminate|].
    apply Forall_cons; [intros []|]. apply Forall_nil. }
  assert (H3 : In SDL_QUIT [SDL_QUIT]) by (left; reflexivity).
  exact (proj2 (proj2 (proj2
    (render_loop_stops_at_quit [([SDL_KEYDOWN SDLK_p], 0.016); ([], 0.016)]
       [([], 0.016)] [SDL_QUIT] 0.016 (initial_state 800 600) H1 H2 H3)))).
Defined.

(** ** The OpenGL state a frame leaves behind *)

Lemma frame_state (st : gl_state) (w h : Z) :
  let st' := run st (frame w h) in
  current_program st' = Some water_program
  /\ draw_framebuffer st' = window_framebuffer
  /\ blend st' = false /\ depth_test st' = true /\ cull_face st' = true
  /\ active_texture st' = 2%nat
  /\ bound st' 0%nat GL_TEXTURE_2D = Some tex
  /\ bound st' 1%nat GL_TEXTURE_CUBE_MAP = Some env_tex
  /\ bound st' 2%nat GL_TEXTURE_2D = Some caustics_tex.
Proof.
  cbv zeta. unfold run, frame, caustics_pass, environment_pass, floor_pass, water_pass.
  cbn [app fold_left step emit set_capability current_program draw_framebuffer clear_color
       blend depth_test cull_face active_texture bound sampler_unit log program_eqb
       sampled_textures samplers map fst snd sampler_eqb target_eqb Nat.eqb andb].
  repeat (split; [reflexivity|]). reflexivity.
Qed.

(** X14. Whatever the state before, a frame leaves the OpenGL context with
    the window framebuffer bound, blending off, and depth test and face
    culling on, and the floor, backdrop and caustic textures on units 0, 1
    and 2; no pass switches the depth test off before the caustics pass, so
    from the second frame on the caustics pass draws with GL_DEPTH_TEST
    enabled. *)
Theorem frame_leaves_depth_test_on (events : list sdl_event) (dt : R) (s : loop_state) :
  running s = true -> ~ In SDL_QUIT events ->
  let st' := gl (iteration events dt s) in
  draw_framebuffer st' = window_framebuffer
  /\ blend st' = false /\ depth_test st' = true /\ cull_face st' = true
  /\ bound st' 0%nat GL_TEXTURE_2D = Some tex
  /\ bound st' 1%nat GL_TEXTURE_CUBE_MAP = Some env_tex
  /\ bound st' 2%nat GL_TEXTURE_2D = Some caustics_tex
  /\ (forall (events' : list sdl_event) (dt' : R),
         ~ In SDL_QUIT events' ->
         nth 1 (frame_events events' dt' (iteration events dt s)) Presented
         = Drawn caustics_program caustics_fbo [] true true).
Proof.
  intros Hrun Hq st'.
  destruct (iteration_without_quit events dt s Hrun Hq) as (Hr & Hg & _).
  unfold st'. rewrite Hg.
  destruct (frame_state (gl s) (width (fold_left handle_event events s))
              (height (fold_left handle_event events s)))
    as (_ & H1 & H2 & H3 & H4 & _ & H5 & H6 & H7).
  cbv zeta in H1, H2, H3, H4, H5, H6, H7.
  repeat split; try assumption.
  intros events' dt' Hq'.
  destruct (iteration_without_quit events' dt' (iteration events dt s) Hr Hq')
    as (_ & _ & Hl).
  unfold frame_events. rewrite Hl, skipn_length_app.
  rewrite Hg, H3. reflexivity.
Qed.

Lemma frame_leaves_depth_test_on_witness :
  depth_test (gl (iteration [SDL_WINDOWEVENT_RESIZED 1024 768] 0.016 (initial_state 800 600)))
  = true.
Proof.
  apply (frame_leaves_depth_test_on [SDL_WINDOWEVENT_RESIZED 1024 768] 0.016
           (initial_state 800 600)).
  - reflexivity.
  - intros [H|[]]; discriminate.
Defined.

(** ** Time and the pause key *)

Lemma events_keep_time (events : list sdl_event) (s : loop_state) :
  time (fold_left handle_event events s) = time s
  /\ paused (fold_left handle_event events s)
     = xorb (paused s) (Nat.odd (Input.pause_presses events)).
Proof.
  revert s. induction events as [|e events IH]; intros s.
  - cbn. now rewrite xorb_false_r.
  - cbn [fold_left]. destruct (IH (handle_event s e)) as [Ht Hp]. rewrite Ht, Hp.
    destruct e as [ | d1 d2 | [|] | k | ]; cbn [handle_event time paused Input.pause_presses];
      try (now split).
    split; [reflexivity|].
    rewrite Nat.odd_succ, <- Nat.negb_odd.
    destruct (paused s), (Nat.odd (Input.pause_presses events)); reflexivity.
Qed.

(** X15. Every key-down of P polled in an iteration toggles the pause flag,
    so the flag after the poll is the old one flipped by the parity of the
    presses; an iteration that draws advances the time by dt when it is then
    not paused and leaves it unchanged when paused, and an iteration that
    polls a quit event leaves the time unchanged. *)
Theorem time_advances_unless_paused (events : list sdl_event) (dt : R) (s : loop_state) :
  running s = true ->
  let now_paused := xorb (paused s) (Nat.odd (Input.pause_presses events)) in
  paused (iteration events dt s) = now_paused
  /\ (~ In SDL_QUIT events ->
      time (iteration events dt s) = if now_paused then time s else time s + dt)
  /\ (In SDL_QUIT events -> time (iteration events dt s) = time s).
Proof.
  intros Hrun now_paused. destruct (events_keep_time events s) as [Ht Hp].
  fold now_paused in Hp. split; [|split].
  - unfold iteration. destruct (negb (running (fold_left handle_event events s)));
      cbn [paused]; exact Hp.
  - intros Hq. destruct (handle_events_without_quit events s Hq) as [Hr _].
    unfold iteration. rewrite Hr, Hrun. cbn [negb time]. now rewrite Hp, Ht.
  - intros Hq. destruct (handle_events_with_quit events s Hq) as [Hr _].
    unfold iteration. rewrite Hr. cbn [negb]. exact Ht.
Qed.

Lemma time_advances_unless_paused_witness :
  paused (iteration [SDL_KEYDOWN SDLK_p; SDL_KEYUP SDLK_p; SDL_KEYDOWN SDLK_p] 0.016
            (initial_state 800 600))
  = false.
Proof.
  assert (H : running (initial_state 800 600) = true) by reflexivity.
  exact (proj1 (time_advances_unless_paused
                  [SDL_KEYDOWN SDLK_p; SDL_KEYUP SDLK_p; SDL_KEYDOWN SDLK_p] 0.016
                  (initial_state 800 600) H)).
Defined.

(** ** The specular highlight of the floor *)

Lemma reflect_sqr (normal direction : vec3) :
  dot normal normal = 1 ->
  dot (FloorFS.reflect normal direction) (FloorFS.reflect normal direction)
  = dot direction direction.
Proof.
  intros Hn. unfold FloorFS.reflect.
  destruct normal as [nx ny nz], direction as [dx dy dz].
  unfold dot in *; cbn in *.
  set (c := nx * dx + ny * dy + nz * dz).
  replace ((2 * nx * c - dx) * (2 * nx * c - dx) + (2 * ny * c - dy) * (2 * ny * c - dy)
           + (2 * nz * c - dz) * (2 * nz * c - dz))
    with (4 * c * c * (nx * nx + ny * ny + nz * nz) - 4 * c * c
          + (dx * dx + dy * dy + dz * dz)) by (unfold c; ring).
  rewrite Hn. ring.
Qed.

Lemma pow_unit_interval (x y : R) :
  0 <= x <= 1 -> 0 <= y -> 0 <= FloorFS.pow x y <= 1.
Proof.
  intros [Hx0 Hx1] Hy. unfold FloorFS.pow.
  destruct (Req_dec_T x 0) as [E|E]; [lra|].
  assert (Hx : 0 < x) by lra.
  unfold Rpower. split; [left; apply exp_pos|].
  assert (Hl : ln x <= 0).
  { destruct (Req_dec_T x 1) as [->|N1]; [rewrite ln_1; lra|].
    left. rewrite <- ln_1. apply ln_increasing; lra. }
  assert (Hm : y * ln x <= 0) by nra.
  destruct (Req_dec_T (y * ln x) 0) as [->|N0]; [rewrite exp_0; lra|].
  left. rewrite <- exp_0. apply exp_increasing. lra.
Qed.

(** X16. For a unit normal and a unit light direction, a camera away from
    the floor point, 0 < roughness <= 1 and glossiness >= 0, the specular
    term of the floor shader lies between 0 and glossiness. *)
Theorem floor_specular_bounds
  (camera_position position normal direction : vec3) (glossiness roughness : R) :
  dot normal normal = 1 -> dot direction direction = 1 ->
  0 < dot (sub camera_position position) (sub camera_position position) ->
  0 < roughness <= 1 -> 0 <= glossiness ->
  0 <= FloorFS.specular camera_position glossiness roughness position normal direction
    <= glossiness.
Proof.
  intros Hn Hd Hc [Hr0 Hr1] Hg. unfold FloorFS.specular. cbv zeta.
  set (v := normalize (sub camera_position position)).
  set (r := FloorFS.reflect normal direction).
  assert (Hv : dot v v = 1) by (now apply normalize_is_unit).
  assert (Hr : dot r r = 1) by (unfold r; rewrite reflect_sqr; assumption).
  pose proof (dot_unit_sqr_le_1 r v Hr Hv) as Hsq.
  assert (Hm : 0 <= Rmax 0 (dot r v) <= 1).
  { split; [apply Rmax_l|]. apply Rmax_lub; [lra|nra]. }
  assert (Hp : 0 <= 1 / (roughness * roughness) - 1).
  { assert (Hrr : 0 < roughness * roughness) by nra.
    assert (Hi : (roughness * roughness) * / (roughness * roughness) = 1)
      by (apply Rinv_r; lra).
    assert (Hip : 0 < / (roughness * roughness)) by (now apply Rinv_0_lt_compat).
    unfold Rdiv. nra. }
  pose proof (pow_unit_interval _ _ Hm Hp) as Hpow.
  split; nra.
Qed.

Lemma floor_specular_bounds_witness :
  0 <= FloorFS.specular (Vec3 20 10 20) 3.0 0.05 (Vec3 20 0 4) (Vec3 0 1 0) (Vec3 0 1 0)
    <= 3.0.
Proof.
  apply (floor_specular_bounds (Vec3 20 10 20) (Vec3 20 0 4) (Vec3 0 1 0) (Vec3 0 1 0)
           3.0 0.05).
  - unfold dot; cbn; ring.
  - unfold dot; cbn; ring.
  - unfold dot, sub; cbn; lra.
  - lra.
  - lra.
Defined.

(** ** The refraction routine in the water pass *)

Lemma binary32_camera_along_normal :
  let position := Binary32.Vec3 (Binary32.of_scaled 20 0) (Binary32.of_scaled 5 0)
                    (Binary32.of_scaled 4 0) in
  let camera_position := Binary32.Vec3 (Binary32.of_scaled 79 (-2)) (Binary32.of_scaled 6 0)
                           (Binary32.of_scaled 15 (-2)) in
  let normal := Binary32.vertex_normal (Binary32.of_scaled 1 (-2)) (Binary32.of_scaled 1 (-2)) in
  let V := Binary32.view_direction camera_position position in
  Binary32.ltb (Binary32.y position) (Binary32.y camera_position) = true
  /\ Binary32.ltb Binary32.zero (Binary32.y V) = true
  /\ Binary32.cosine normal V = SpecFloat.S754_finite false 8388609 (-23)
  /\ Binary32.ltb (Binary32.sine_argument normal V) Binary32.zero = true
  /\ Binary32.sine normal V = SpecFloat.S754_nan.
Proof. vm_compute. repeat split. Qed.

(** X17. The refraction routine of the water pass is unguarded at the
    viewer direction V = normalize(camera_position - P). With the camera
    level with the surface point (and not at it) V.y = 0 and the straight-ray
    step divides by zero. In binary32, with the camera above the point along
    its normal (P = (20, 5, 4), camera (19.75, 6, 3.75), vertex normal for
    the slopes (1/4, 1/4)), V.y > 0, the cosine rounds to 1 + 2^-23,
    1 - cosine * cosine is negative and the square root is not a number. *)
Theorem water_pass_refraction_unguarded (camera_position position normal : vec3) :
  dot normal normal = 1 ->
  0 < dot (sub camera_position position) (sub camera_position position) ->
  v3y camera_position = v3y position ->
  let V := normalize (sub camera_position position) in
  let position32 := Binary32.Vec3 (Binary32.of_scaled 20 0) (Binary32.of_scaled 5 0)
                      (Binary32.of_scaled 4 0) in
  let camera32 := Binary32.Vec3 (Binary32.of_scaled 79 (-2)) (Binary32.of_scaled 6 0)
                    (Binary32.of_scaled 15 (-2)) in
  let normal32 :=
    Binary32.vertex_normal (Binary32.of_scaled 1 (-2)) (Binary32.of_scaled 1 (-2)) in
  let V32 := Binary32.view_direction camera32 position32 in
  v3y V = 0
  /\ Checked.get_refract V 1.0 1.333 normal position = None
  /\ Binary32.ltb (Binary32.y position32) (Binary32.y camera32) = true
  /\ Binary32.ltb Binary32.zero (Binary32.y V32) = true
  /\ Binary32.cosine normal32 V32 = SpecFloat.S754_finite false 8388609 (-23)
  /\ Binary32.ltb (Binary32.sine_argument normal32 V32) Binary32.zero = true
  /\ Binary32.sine normal32 V32 = SpecFloat.S754_nan.
Proof.
  intros Hn Hc Hlevel V position32 camera32 normal32 V32.
  assert (HV : dot V V = 1) by (now apply normalize_is_unit).
  assert (Hy : v3y V = 0).
  { unfold V, normalize, rdiv, sub; cbn [v3y]. rewrite Hlevel. unfold Rdiv. ring. }
  split; [exact Hy|].
  split; [apply checked_get_refract_horizontal; try assumption; lra|].
  exact binary32_camera_along_normal.
Qed.

Lemma water_pass_refraction_unguarded_witness :
  Checked.get_refract (normalize (sub (Vec3 25 5 5) (Vec3 20 5 5))) 1.0 1.333
    (Vec3 0 1 0) (Vec3 20 5 5)
  = None.
Proof.
  assert (H1 : dot (Vec3 0 1 0) (Vec3 0 1 0) = 1) by (unfold dot; cbn; ring).
  assert (H2 : 0 < dot (sub (Vec3 25 5 5) (Vec3 20 5 5)) (sub (Vec3 25 5 5) (Vec3 20 5 5)))
    by (unfold dot, sub; cbn; lra).
  assert (H3 : v3y (Vec3 25 5 5) = v3y (Vec3 20 5 5)) by reflexivity.
  exact (proj1 (proj2
    (water_pass_refraction_unguarded (Vec3 25 5 5) (Vec3 20 5 5) (Vec3 0 1 0) H1 H2 H3))).
Defined.
